(** * Google-Sheets-To-Supabase: the load scripts

A shallow embedding of [tools/create_table_and_insert.py] and of the
driver of [tools/upsert_to_supabase.py].

Python strings are sequences of Unicode code points, so a [str] is a
[list N]; slicing and [len] count code points.  The ASCII part of the
string methods the scripts call ([strip], [lower], [isdigit]) is written
out; what they do on code points outside ASCII comes from the Unicode
tables of the interpreter, which the development takes as a parameter
([PyUnicode]), so every statement holds whatever those tables say. *)

From Stdlib Require Import String Ascii ZArith NArith DecimalString DecimalPos DecimalZ.
From stdpp Require Import base option list gmap.

Local Open Scope N_scope.

(** ** Strings *)

Abbreviation str := (list N).

(** A literal of the source, as code points (the literals are all ASCII). *)
Definition pystr (s : string) : str := N_of_ascii <$> list_ascii_of_string s.

Definition is_ascii (c : N) : bool := c <? 128.

Definition ascii_isspace (c : N) : bool :=
  ((9 <=? c) && (c <=? 13)) || ((28 <=? c) && (c <=? 32)).

Definition ascii_isdigit (c : N) : bool := (48 <=? c) && (c <=? 57).

Definition ascii_islower (c : N) : bool := (97 <=? c) && (c <=? 122).

Definition ascii_lower (c : N) : N :=
  if (65 <=? c) && (c <=? 90) then c + 32 else c.

Definition underscore : N := 95.

(** What the interpreter's Unicode database decides: whether a code point
    outside ASCII is white space or a digit, and the lowercase form of a
    string that is not pure ASCII. *)
Class PyUnicode := {
  unicode_isspace : N -> bool;
  unicode_isdigit : N -> bool;
  unicode_lower : str -> str
}.

Section Strings.
Context {U : PyUnicode}.

Definition isspace (c : N) : bool :=
  if is_ascii c then ascii_isspace c else unicode_isspace c.

(** [s.isdigit()] for a one-character string. *)
Definition isdigit (c : N) : bool :=
  if is_ascii c then ascii_isdigit c else unicode_isdigit c.

(** [s.lower()] *)
Definition lower (s : str) : str :=
  if forallb is_ascii s then ascii_lower <$> s else unicode_lower s.

Fixpoint lstrip_by (p : N -> bool) (s : str) : str :=
  match s with
  | [] => []
  | c :: rest => if p c then lstrip_by p rest else s
  end.

Definition rstrip_by (p : N -> bool) (s : str) : str :=
  reverse (lstrip_by p (reverse s)).

(** [s.strip()] *)
Definition strip (s : str) : str := rstrip_by isspace (lstrip_by isspace s).

(** [s.lstrip("_")] *)
Definition lstrip_underscore (s : str) : str :=
  lstrip_by (N.eqb underscore) s.
End Strings.

(** The character class [[a-z0-9_]]. *)
Definition ident_char (c : N) : bool :=
  ascii_islower c || ascii_isdigit c || (c =? underscore).

(** [re.sub(r"[^a-z0-9_]", "_", name)] *)
Definition sub_non_ident (s : str) : str :=
  (fun c => if ident_char c then c else underscore) <$> s.

(** [re.sub(r"_+", "_", name)]: of every maximal run of underscores one is
    kept, so an underscore is dropped exactly when another one follows. *)
Fixpoint sub_underscore_runs (s : str) : str :=
  match s with
  | [] => []
  | c :: rest =>
      if c =? underscore then
        match rest with
        | d :: _ => if d =? underscore then sub_underscore_runs rest
                    else c :: sub_underscore_runs rest
        | [] => [c]
        end
      else c :: sub_underscore_runs rest
  end.

(** [str(n)] for an [int]. *)
Definition str_of_int (z : Z) : str := pystr (NilZero.string_of_int (Z.to_int z)).

(** ** Column-name sanitization *)

Definition NAMEDATALEN_1 : nat := 63.

Section Sanitizer.
Context {U : PyUnicode}.

Definition sanitize_column_name (raw : str) : str :=
  let name := strip raw in
  if bool_decide (name = []) then pystr "_unnamed" else
  let name := lower name in
  let name := sub_non_ident name in
  let name := sub_underscore_runs name in
  let name := lstrip_underscore name in
  if bool_decide (name = []) then pystr "_unnamed" else
  let name :=
    match name with
    | c :: _ => if isdigit c then pystr "col_" ++ name else name
    | [] => name
    end in
  take NAMEDATALEN_1 name.
End Sanitizer.

(** ** Outcomes of a call

A call returns, raises, or is still running when the fuel given to its
[while] loop is used up. *)

Inductive exn :=
  | KeyError
  | ValueError (msg : string)
  | FileNotFoundError
  | JSONDecodeError
  | TypeError
  | AttributeError
  | HTTPError (status : Z)
  | APIError.

Inductive outcome (A : Type) :=
  | Returns (a : A)
  | Raises (e : exn)
  | NoFuel.
Arguments Returns {A} a.
Arguments Raises {A} e.
Arguments NoFuel {A}.

#[global] Instance outcome_bind : MBind outcome := fun A B k m =>
  match m with
  | Returns a => k a
  | Raises e => Raises e
  | NoFuel => NoFuel
  end.

(** ** Column mapping *)

Section ColumnMap.
Context {U : PyUnicode}.

(** [f"{base}_{n}"[:63]] *)
Definition candidate_name (base : str) (n : Z) : str :=
  take NAMEDATALEN_1 (base ++ pystr "_" ++ str_of_int n).

(** [seen[base] += 1; candidate = f"{base}_{seen[base]}"[:63]] *)
Definition next_candidate (seen : gmap (list N) Z) (base : str)
  : outcome (gmap (list N) Z * str) :=
  match seen !! base with
  | Some n => Returns (<[base := (n + 1)%Z]> seen, candidate_name base (n + 1))
  | None => Raises KeyError
  end.

(** [while candidate in seen: ...] *)
Fixpoint while_candidate_in_seen (fuel : nat) (seen : gmap (list N) Z)
    (base candidate : str) : outcome (gmap (list N) Z * str) :=
  match fuel with
  | O => NoFuel
  | S fuel =>
      if bool_decide (is_Some (seen !! candidate)) then
        '(seen, candidate) ← next_candidate seen base;
        while_candidate_in_seen fuel seen base candidate
      else Returns (seen, candidate)
  end.

(** The body of [for header in headers]. *)
Definition column_step (fuel : nat)
    (st : gmap (list N) Z * list (str * str)) (header : str)
  : outcome (gmap (list N) Z * list (str * str)) :=
  let '(seen, result) := st in
  let base := sanitize_column_name header in
  if bool_decide (seen !! base = None) then
    Returns (<[base := 1%Z]> seen, result ++ [(header, base)])
  else
    '(seen, candidate) ← next_candidate seen base;
    '(seen, candidate) ← while_candidate_in_seen fuel seen base candidate;
    Returns (<[candidate := 1%Z]> seen, result ++ [(header, candidate)]).

Fixpoint for_headers (fuel : nat) (headers : list str)
    (st : gmap (list N) Z * list (str * str))
  : outcome (gmap (list N) Z * list (str * str)) :=
  match headers with
  | [] => Returns st
  | header :: headers =>
      st ← column_step fuel st header;
      for_headers fuel headers st
  end.

Definition build_column_map (fuel : nat) (headers : list str)
  : outcome (list (str * str)) :=
  '(_, result) ← for_headers fuel headers ({[ pystr "id" := 1%Z ]}, []);
  Returns result.
End ColumnMap.

(** ** Rows

A sheet row is a [dict] from header to cell text; the order of its keys
matters ([list(rows[0].keys())]), so it is an association list, read
from the front. *)

Abbreviation row := (list (str * str)).

(** [row.get(key)] *)
Fixpoint dict_lookup (d : row) (key : str) : option str :=
  match d with
  | [] => None
  | (k, v) :: rest => if bool_decide (k = key) then Some v else dict_lookup rest key
  end.

(** [row.get(key, dflt)] *)
Definition dict_get (d : row) (key dflt : str) : str :=
  default dflt (dict_lookup d key).

(** [list(row.keys())] *)
Definition dict_keys (d : row) : list str := d.*1.

(** [d[key] = value]: a key that is present keeps its place. *)
Fixpoint dict_set (d : row) (key value : str) : row :=
  match d with
  | [] => [(key, value)]
  | (k, v) :: rest =>
      if bool_decide (k = key) then (k, value) :: rest
      else (k, v) :: dict_set rest key value
  end.

(** ** Row filter *)

Definition TEST_ENTRIES : list (str * str) :=
  [ (pystr "john", pystr "doe"); (pystr "test", pystr "subject") ].

Section RowFilter.
Context {U : PyUnicode}.

(** The loop of [filter_rows], [kept] being the list built so far. *)
Fixpoint filter_rows_from (rows : list row) (kept : list row) : list row :=
  match rows with
  | [] => kept
  | r :: rows =>
      let given := lower (strip (dict_get r (pystr "given_name") [])) in
      let family := lower (strip (dict_get r (pystr "family_name") [])) in
      let email := strip (dict_get r (pystr "email_address") []) in
      let phone := strip (dict_get r (pystr "phone_number") []) in
      if bool_decide ((given, family) ∈ TEST_ENTRIES) then
        filter_rows_from rows kept
      else if bool_decide (email = []) && bool_decide (phone = []) then
        filter_rows_from rows kept
      else filter_rows_from rows (kept ++ [r])
  end.

Definition filter_rows (rows : list row) : list row :=
  filter_rows_from rows [].
End RowFilter.

(** ** Values *)

(** A cell value handed to the SQL builder.  [rows_to_values] produces
    [None] and strings; numbers and booleans are what else a JSON file
    can put in a cell. *)
Inductive pyval :=
  | PyNone
  | PyStr (s : str)
  | PyInt (z : Z)
  | PyBool (b : bool).

(** [str(val)] *)
Definition py_str (v : pyval) : str :=
  match v with
  | PyNone => pystr "None"
  | PyStr s => s
  | PyInt z => str_of_int z
  | PyBool true => pystr "True"
  | PyBool false => pystr "False"
  end.

Definition rows_to_values (rows : list row) (headers : list str)
  : list (list pyval) :=
  (fun r =>
     (fun h => let v := dict_get r h [] in
               if bool_decide (v = []) then PyNone else PyStr v) <$> headers)
  <$> rows.

(** ** SQL building *)

Definition quote : N := 39.         (* ' *)
Definition dquote : str := [34].    (* the double quote *)
Definition nl : str := [10].        (* \n *)

(** [s.replace("'", "''")] *)
Definition replace_quote (s : str) : str :=
  s ≫= fun c => if c =? quote then [quote; quote] else [c].

(** [sep.join(parts)] *)
Fixpoint join (sep : str) (parts : list str) : str :=
  match parts with
  | [] => []
  | [p] => p
  | p :: rest => p ++ sep ++ join sep rest
  end.

Definition escape_sql_value (val : pyval) : str :=
  match val with
  | PyNone => pystr "NULL"
  | _ => [quote] ++ replace_quote (py_str val) ++ [quote]
  end.

Definition build_values_clause (rows : list (list pyval)) : str :=
  join (pystr "," ++ nl)
    ((fun r => pystr "(" ++ join (pystr ", ") (escape_sql_value <$> r) ++ pystr ")")
     <$> rows).

Definition build_full_sql (table : str) (col_names : list str)
    (value_rows : list (list pyval)) : str :=
  let drop := pystr "DROP TABLE IF EXISTS " ++ dquote ++ table ++ dquote ++ pystr ";" in
  let cols_ddl :=
    join (pystr "," ++ nl ++ pystr "    ")
      ((fun col => dquote ++ col ++ dquote ++ pystr " TEXT") <$> col_names) in
  let create :=
    pystr "CREATE TABLE " ++ dquote ++ table ++ dquote ++ pystr " (" ++ nl
    ++ pystr "    id SERIAL PRIMARY KEY," ++ nl
    ++ pystr "    " ++ cols_ddl ++ nl
    ++ pystr ");" in
  let cols_list :=
    join (pystr ", ") ((fun col => dquote ++ col ++ dquote) <$> col_names) in
  let values := build_values_clause value_rows in
  let insert :=
    pystr "INSERT INTO " ++ dquote ++ table ++ dquote ++ pystr " (" ++ cols_list
    ++ pystr ") VALUES" ++ nl ++ values ++ pystr ";" in
  drop ++ nl ++ create ++ nl ++ insert.

(** ** The drivers

A run of a script is modelled by what it does to the outside, in order
(its trace), and how the process ends.  The outside is given by the
settings read from the environment, the content of the intermediate row
file and the answer of the database service. *)

Inductive event :=
  | EvStat                      (* INPUT_PATH.exists() *)
  | EvRead                      (* open(INPUT_PATH) and json.load *)
  | EvPrint (line : string)     (* print(...), the fixed part of the line *)
  | EvPrintErr (line : string)  (* print(..., file=sys.stderr) *)
  | EvReport (orig san : str) (renamed : bool)
                                (* a line of the mapping report *)
  | EvQuery (sql : str)         (* requests.post to the Management API *)
  | EvUpsert (rows : list row). (* client.table(..).upsert(..).execute() *)

Inductive termination :=
  | Exit (code : Z)             (* sys.exit(code), or the end of main: 0 *)
  | Uncaught (e : exn)          (* traceback, exit status 1 *)
  | Hang.                       (* the run does not end *)

Definition exit_status (t : termination) : option Z :=
  match t with
  | Exit code => Some code
  | Uncaught _ => Some 1%Z
  | Hang => None
  end.

(** A step of a run: the events it adds and, unless the run stops there,
    its value. *)
Inductive io (A : Type) :=
  | Io (trace : list event) (r : A + termination).
Arguments Io {A} trace r.

#[global] Instance io_ret : MRet io := fun A a => Io [] (inl a).
#[global] Instance io_bind : MBind io := fun A B k m =>
  match m with
  | Io tr (inl a) => match k a with Io tr' r => Io (tr ++ tr') r end
  | Io tr (inr t) => Io tr (inr t)
  end.

Definition emit (e : event) : io unit := Io [e] (inl tt).
Definition raise {A} (e : exn) : io A := Io [] (inr (Uncaught e)).
Definition sys_exit {A} (code : Z) : io A := Io [] (inr (Exit code)).
Definition hang {A} : io A := Io [] (inr Hang).

(** The trace and the end of a run of [main]. *)
Definition run (m : io unit) : list event * termination :=
  match m with
  | Io tr (inl _) => (tr, Exit 0)
  | Io tr (inr t) => (tr, t)
  end.

(** The content of [.tmp/sheet_data.json]: absent, not JSON, or a JSON
    value.  An array is taken to hold the row objects that
    [fetch_google_sheet.py] writes (text cells keyed by header). *)
Inductive json_top :=
  | JNull
  | JBool (b : bool)
  | JNumber (zero : bool)
  | JString (s : str)
  | JObject (keys : list str)
  | JArray (rows : list row).

Inductive sheet_file :=
  | FileMissing
  | FileNotJson
  | FileJson (j : json_top).

(** [bool(rows)] for what [json.load] returned. *)
Definition truthy (j : json_top) : bool :=
  match j with
  | JNull | JBool false | JNumber true | JString [] | JObject [] | JArray [] => false
  | _ => true
  end.

(** [not v] for a setting read with [os.getenv]. *)
Definition unset (v : option str) : bool :=
  match v with
  | None | Some [] => true
  | Some (_ :: _) => false
  end.

Definition setting (v : option str) : str := default [] v.

(** What the Management API answers to the query. *)
Record response := {
  status_code : Z;
  body_is_json : bool
}.

(** [for x in xs: body(x)] *)
Fixpoint for_each {A} (xs : list A) (body : A -> io unit) : io unit :=
  match xs with
  | [] => mret tt
  | x :: xs => _ ← body x; for_each xs body
  end.

Module Create.
(** The module-level settings of [create_table_and_insert.py]. *)
Record config := {
  PROJECT_REF : option str;
  MANAGEMENT_KEY : option str;
  TABLE_NAME : option str
}.

Definition load_rows (file : sheet_file) : io (list row) :=
  _ ← emit EvStat;
  match file with
  | FileMissing => raise FileNotFoundError
  | FileNotJson => _ ← emit EvRead; raise JSONDecodeError
  | FileJson j =>
      _ ← emit EvRead;
      match j with
      | JArray rows => mret rows
      | _ => raise (ValueError "Expected a JSON array")
      end
  end.

(** [resp] is the answer of the service.  [resp.raise_for_status()] raises
    for a status from 400 to 599 only; [resp.json()] fails on a body that is
    not JSON. *)
Definition run_query (resp : response) (sql : str) : io unit :=
  _ ← emit (EvQuery sql);
  _ ← (if bool_decide (status_code resp ∈ [200; 201]%Z) then mret tt
       else
         _ ← emit (EvPrintErr "[ERR] Management API returned");
         _ ← emit (EvPrintErr "resp.text");
         if bool_decide (400 <= status_code resp < 600)%Z
         then raise (HTTPError (status_code resp)) else mret tt);
  if body_is_json resp then mret tt else raise JSONDecodeError.

Section Main.
Context {U : PyUnicode}.

Definition main (fuel : nat) (cfg : config) (file : sheet_file)
    (resp : response) : io unit :=
  if unset (PROJECT_REF cfg) then
    raise (ValueError "SUPABASE_PROJECT_REF is not set in .env") else
  if unset (MANAGEMENT_KEY cfg) then
    raise (ValueError "SUPABASE_MANAGEMENT_KEY is not set in .env") else
  if unset (TABLE_NAME cfg) then
    raise (ValueError "SUPABASE_TABLE is not set in .env") else
  rows ← load_rows file;
  _ ← (if bool_decide (rows = []) then
         _ ← emit (EvPrint "sheet_data.json is empty - nothing to insert.");
         sys_exit 0
       else mret tt);
  let rows := filter_rows rows in
  _ ← emit (EvPrint "Filtered");
  _ ← (if bool_decide (rows = []) then
         _ ← emit (EvPrint "No rows left after filtering - nothing to insert.");
         sys_exit 0
       else mret tt);
  let original_headers := dict_keys (default [] (head rows)) in
  col_map ← match build_column_map fuel original_headers with
            | Returns col_map => mret col_map
            | Raises e => raise e
            | NoFuel => hang
            end;
  let sanitized_names := col_map.*2 in
  _ ← emit (EvPrint "====");
  _ ← emit (EvPrint "Table :");
  _ ← emit (EvPrint "Cols : | Rows :");
  _ ← emit (EvPrint "----");
  _ ← emit (EvPrint "Original Header / Sanitized Name");
  _ ← emit (EvPrint "---- ----");
  _ ← for_each col_map (fun '(orig, san) =>
         let flag := negb (bool_decide (lower (strip orig) = san)) in
         emit (EvReport orig san flag));
  _ ← emit (EvPrint "====");
  let value_rows := rows_to_values rows original_headers in
  let sql := build_full_sql (setting (TABLE_NAME cfg)) sanitized_names value_rows in
  _ ← emit (EvPrint "Sending to Supabase Management API ...");
  _ ← run_query resp sql;
  emit (EvPrint "[OK] row(s) inserted").
End Main.
End Create.

Module Upsert.
(** The module-level settings of [upsert_to_supabase.py].  [COLUMN_MAP]
    is the object that [json.loads(COLUMN_MAP_RAW)] gives when the text is
    a JSON object of strings, and [None] when the text is not JSON. *)
Record config := {
  SUPABASE_URL : option str;
  SUPABASE_KEY : option str;
  TABLE_NAME : option str;
  PK_COLUMN : option str;
  COLUMN_MAP : option (list (str * str))
}.

Definition get_client (cfg : config) : io unit :=
  if unset (SUPABASE_URL cfg) || unset (SUPABASE_KEY cfg) then
    raise (ValueError "SUPABASE_URL and SUPABASE_KEY must be set in .env")
  else mret tt.

(** The inner loop of [apply_column_map]: one row, key by key. *)
Fixpoint rename_keys (items : row) (col_map : list (str * str)) (new_row : row) : row :=
  match items with
  | [] => new_row
  | (key, value) :: items =>
      let new_key := dict_get col_map key key in
      rename_keys items col_map (dict_set new_row new_key value)
  end.

Definition apply_column_map (rows : list row) (col_map : list (str * str))
  : list row :=
  (fun r => rename_keys r col_map []) <$> rows.

(** [answer] is what the service gives back: the number of rows of
    [response.data], or nothing when the call fails. *)
Definition upsert_rows (answer : option nat) (rows : list row) : io (option nat) :=
  if bool_decide (rows = []) then
    _ ← emit (EvPrint "No rows to upsert."); mret None
  else
    _ ← emit (EvUpsert rows);
    match answer with
    | Some n => mret (Some n)
    | None => raise APIError
    end.

Definition main (cfg : config) (file : sheet_file) (answer : option nat)
  : io unit :=
  if unset (TABLE_NAME cfg) || unset (PK_COLUMN cfg) then
    raise (ValueError "SUPABASE_TABLE and SUPABASE_PK must be set in .env") else
  _ ← emit EvStat;
  match file with
  | FileMissing => raise FileNotFoundError
  | FileNotJson => _ ← emit EvRead; raise JSONDecodeError
  | FileJson j =>
      _ ← emit EvRead;
      if negb (truthy j) then
        emit (EvPrint "sheet_data.json is empty - nothing to upsert.")
      else
        col_map ← match COLUMN_MAP cfg with
                  | Some m => mret m
                  | None => raise JSONDecodeError
                  end;
        match j with
        | JArray rows =>
            let mapped_rows := apply_column_map rows col_map in
            _ ← emit (EvPrint "Mapped row(s) using COLUMN_MAP.");
            _ ← get_client cfg;
            _ ← emit (EvPrint "Upserting");
            _ ← upsert_rows answer mapped_rows;
            emit (EvPrint "Done. Supabase response count")
        | JNull | JBool _ | JNumber _ => raise TypeError
        | JString _ | JObject _ => raise AttributeError
        end
  end.
End Upsert.

(** * Specification vocabulary *)

(** ** The sanitizer *)

(** Only lowercase letters, digits and underscores. *)
Definition all_ident (s : str) : Prop := Forall (fun c => ident_char c = true) s.

(** The shape of every result: the placeholder, or a name that starts
    with a lowercase letter. *)
Definition placeholder_or_letter (s : str) : Prop :=
  s = pystr "_unnamed" \/
  exists c rest, s = c :: rest /\ ascii_islower c = true.

(** ** The column mapping *)

(** The identifiers taken so far: the reserved [id] and the sanitized names
    of the pairs recorded in [result]. *)
Definition taken (result : list (str * str)) : list str :=
  pystr "id" :: result.*2.

(** How a header whose sanitized name is [base] gets its identifier when
    the identifiers in [prior] are taken. *)
Definition assigned_as (prior : list str) (base name : str) : Prop :=
  ((base ∉ prior) /\ name = base) \/
  ((base ∈ prior) /\
   exists n : Z, (2 <= n)%Z /\ name = candidate_name base n /\ (name ∉ prior) /\
     forall m : Z, (2 <= m < n)%Z -> candidate_name base m ∈ prior).

Definition assignments_ok `{PyUnicode} (result : list (str * str)) : Prop :=
  forall (i : nat) (h name : str), result !! i = Some (h, name) ->
    assigned_as (taken (take i result)) (sanitize_column_name h) name.

(** What the loop of [build_column_map] maintains between two headers. *)
Record column_inv (seen : gmap (list N) Z) (result : list (str * str)) : Prop := {
  inv_dom : forall x, is_Some (seen !! x) <-> x ∈ taken result;
  inv_count : forall b k, seen !! b = Some k ->
    (1 <= k)%Z /\ forall m, (2 <= m <= k)%Z -> candidate_name b m ∈ taken result;
  inv_nodup : NoDup (taken result)
}.

(** Two distinct headers, 63 letters [a] and 63 letters [A]; both are
    sanitized to the first. *)
Definition long_header : str := replicate 63 97.
Definition LONG_HEADER : str := replicate 63 65.

(** Lookup of the original header of a sanitized name among the recorded
    pairs. *)
Fixpoint original_of (col_map : list (str * str)) (san : str) : option str :=
  match col_map with
  | [] => None
  | (orig, s) :: rest =>
      if bool_decide (s = san) then Some orig else original_of rest san
  end.

(** ** The row filter *)

Section RowFilterSpec.
Context {U : PyUnicode}.

(** The identity pair of a row: given and family name, trimmed and
    lowercased, a missing field counting as empty. *)
Definition identity (r : row) : str * str :=
  (lower (strip (dict_get r (pystr "given_name") [])),
   lower (strip (dict_get r (pystr "family_name") []))).

(** At least one of the trimmed contact fields is not empty. *)
Definition has_contact (r : row) : Prop :=
  strip (dict_get r (pystr "email_address") []) <> [] \/
  strip (dict_get r (pystr "phone_number") []) <> [].

(** The rows the filter is to keep. *)
Definition eligible (r : row) : Prop :=
  (identity r ∉ TEST_ENTRIES) /\ has_contact r.

#[global] Instance eligible_dec (r : row) : Decision (eligible r).
Proof. unfold eligible, has_contact. apply _. Defined.
End RowFilterSpec.

(** The rows of the example of the specification. *)
Definition john_doe_row : row :=
  [ (pystr "given_name", pystr "John"); (pystr "family_name", pystr "Doe");
    (pystr "email_address", pystr ""); (pystr "phone_number", pystr "") ].

Definition a_b_row : row :=
  [ (pystr "given_name", pystr "A"); (pystr "family_name", pystr "B");
    (pystr "email_address", pystr "a@b.com"); (pystr "phone_number", pystr "") ].

(** ** The SQL builder *)

(** The three statements, as the specification describes them. *)

(** An identifier between double quotes. *)
Definition quoted (ident : str) : str := dquote ++ ident ++ dquote.

(** Every single quote of the text written twice. *)
Fixpoint double_quotes (s : str) : str :=
  match s with
  | [] => []
  | c :: rest =>
      if c =? quote then quote :: quote :: double_quotes rest
      else c :: double_quotes rest
  end.

(** The literal of a value: [NULL], or the text of the value between single
    quotes with its own single quotes doubled. *)
Definition sql_literal (v : pyval) : str :=
  match v with
  | PyNone => pystr "NULL"
  | _ => pystr "'" ++ double_quotes (py_str v) ++ pystr "'"
  end.

Definition value_tuple (vals : list pyval) : str :=
  pystr "(" ++ join (pystr ", ") (sql_literal <$> vals) ++ pystr ")".

Definition drop_statement (table : str) : str :=
  pystr "DROP TABLE IF EXISTS " ++ quoted table ++ pystr ";".

(** The [id] column, then one [TEXT] column per identifier. *)
Definition create_statement (table : str) (cols : list str) : str :=
  pystr "CREATE TABLE " ++ quoted table ++ pystr " (" ++ nl
  ++ pystr "    id SERIAL PRIMARY KEY," ++ nl
  ++ pystr "    "
  ++ join (pystr "," ++ nl ++ pystr "    ")
       ((fun col => quoted col ++ pystr " TEXT") <$> cols)
  ++ nl ++ pystr ");".

Definition insert_statement (table : str) (cols : list str)
    (value_rows : list (list pyval)) : str :=
  pystr "INSERT INTO " ++ quoted table
  ++ pystr " (" ++ join (pystr ", ") (quoted <$> cols) ++ pystr ") VALUES" ++ nl
  ++ join (pystr "," ++ nl) (value_tuple <$> value_rows) ++ pystr ";".

(** ** The drivers *)

(** No event of the trace is a call to the database service. *)
Definition no_database_call (tr : list event) : Prop :=
  Forall (fun e => match e with
                   | EvQuery _ | EvUpsert _ => False
                   | _ => True
                   end) tr.

(** ** Concrete inputs *)

(** Tables under which no code point outside ASCII is white space or a
    digit and lowercasing leaves such strings alone; the concrete inputs
    below are ASCII, where the tables are not consulted. *)
Definition ascii_tables : PyUnicode :=
  {| unicode_isspace := fun _ => false;
     unicode_isdigit := fun _ => false;
     unicode_lower := fun s => s |}.

Definition response_ok : response :=
  {| status_code := 200; body_is_json := true |}.

(** A sheet row whose first two headers are sanitized to the same 63
    letters. *)
Definition long_headers_row : row :=
  [ (long_header, pystr "x"); (LONG_HEADER, pystr "y");
    (pystr "email_address", pystr "a@b.com") ].

Definition create_config_ok : Create.config :=
  {| Create.PROJECT_REF := Some (pystr "ref");
     Create.MANAGEMENT_KEY := Some (pystr "key");
     Create.TABLE_NAME := Some (pystr "people") |}.

Definition upsert_config_no_url : Upsert.config :=
  {| Upsert.SUPABASE_URL := None;
     Upsert.SUPABASE_KEY := Some (pystr "key");
     Upsert.TABLE_NAME := Some (pystr "people");
     Upsert.PK_COLUMN := Some (pystr "id");
     Upsert.COLUMN_MAP := Some [] |}.

(** * Further vocabulary *)

(** ** The column mapping *)

(** The text of the candidate [base_n] is short enough not to be cut. *)
Definition fits (base : str) (n : Z) : Prop :=
  (length (base ++ pystr "_" ++ str_of_int n) <= NAMEDATALEN_1)%nat.

(** The mapping that renames nothing. *)
Definition plain_map `{PyUnicode} (headers : list str) : list (str * str) :=
  (fun h => (h, sanitize_column_name h)) <$> headers.

(** ** The sanitizer *)

(** Two underscores in a row somewhere in the text. *)
Fixpoint adjacent_underscores (s : str) : bool :=
  match s with
  | [] => false
  | c :: rest =>
      match rest with
      | [] => false
      | d :: _ => ((c =? underscore) && (d =? underscore)) || adjacent_underscores rest
      end
  end.

(** ** Reading SQL literals back

The reader of a standard SQL value literal: [NULL], or a string literal
that starts at a single quote and ends at the first single quote that is
not doubled.  It returns the value read and the text that follows. *)

(** The text of a string literal after its opening quote. *)
Fixpoint read_quoted (s : str) : option (str * str) :=
  match s with
  | [] => None
  | c :: rest =>
      if c =? quote then
        match rest with
        | d :: rest' =>
            if d =? quote then
              match read_quoted rest' with
              | Some (text, tail) => Some (quote :: text, tail)
              | None => None
              end
            else Some ([], rest)
        | [] => Some ([], [])
        end
      else
        match read_quoted rest with
        | Some (text, tail) => Some (c :: text, tail)
        | None => None
        end
  end.

Definition read_sql_value (s : str) : option (option str * str) :=
  match s with
  | 78 :: 85 :: 76 :: 76 :: tail => Some (None, tail)     (* NULL *)
  | c :: rest =>
      if c =? quote then
        match read_quoted rest with
        | Some (text, tail) => Some (Some text, tail)
        | None => None
        end
      else None
  | [] => None
  end.

(** What the database is to store for a value: null, or its text. *)
Definition stored (v : pyval) : option str :=
  match v with
  | PyNone => None
  | _ => Some (py_str v)
  end.

(** ** Runs of the drivers *)

(** The calls to the database service in a trace. *)
Definition database_calls (tr : list event) : list event :=
  List.filter (fun e => match e with
                        | EvQuery _ | EvUpsert _ => true
                        | _ => false
                        end) tr.

(** The lines of the mapping report, one per column. *)
Definition report_events `{PyUnicode} (col_map : list (str * str)) : list event :=
  (fun '(orig, san) =>
     EvReport orig san (negb (bool_decide (lower (strip orig) = san))))
  <$> col_map.

(** What the create/replace driver does before it sends the query. *)
Definition trace_before_query `{PyUnicode} (col_map : list (str * str))
  : list event :=
  [ EvStat; EvRead; EvPrint "Filtered";
    EvPrint "===="; EvPrint "Table :"; EvPrint "Cols : | Rows :";
    EvPrint "----"; EvPrint "Original Header / Sanitized Name";
    EvPrint "---- ----" ]
  ++ report_events col_map
  ++ [ EvPrint "===="; EvPrint "Sending to Supabase Management API ..." ].

(** The query of a run on the rows [rows] whose column mapping is
    [col_map]. *)
Definition query_of (cfg : Create.config) (col_map : list (str * str))
    (rows : list row) : str :=
  build_full_sql (setting (Create.TABLE_NAME cfg)) col_map.*2
    (rows_to_values rows (dict_keys (default [] (head rows)))).

Definition create_config_set (cfg : Create.config) : Prop :=
  unset (Create.PROJECT_REF cfg) = false /\
  unset (Create.MANAGEMENT_KEY cfg) = false /\
  unset (Create.TABLE_NAME cfg) = false.


(** A response without content. *)
Definition response_no_content : response :=
  {| status_code := 204; body_is_json := true |}.

(** ** Fetching the sheet

[fetch_sheet] of [tools/fetch_google_sheet.py], from the [values] of the
service's response on: the first row holds the headers, every other row
becomes a [dict]. *)

(** [dict(pairs)] *)
Definition dict_of_pairs (pairs : list (str * str)) : row :=
  foldl (fun d '(k, v) => dict_set d k v) [] pairs.

(** [row + [""] * (num_cols - len(row))] *)
Definition pad_row (num_cols : nat) (cells : list str) : list str :=
  cells ++ replicate (num_cols - length cells) [].

Definition fetch_sheet_rows (values : list (list str)) : list row :=
  if (length values <? 2)%nat then []
  else
    match values with
    | [] => []
    | headers :: data =>
        let num_cols := length headers in
        (fun cells => dict_of_pairs (zip headers (pad_row num_cols cells))) <$> data
    end.

(** The renaming that a column map stands for: [col_map.get(key, key)]. *)
Definition renamed (col_map : list (str * str)) (key : str) : str :=
  dict_get col_map key key.

Definition rename_pair (col_map : list (str * str)) (item : str * str)
  : str * str :=
  (renamed col_map item.1, item.2).

(** A cell as a value: empty text is null. *)
Definition cell_value (cell : str) : pyval :=
  if bool_decide (cell = []) then PyNone else PyStr cell.

(** The keys of [dict(pairs)], from the keys of the pairs: each key at
    its first place. *)
Definition key_order (keys : list str) : list str :=
  foldl (fun ks k => if bool_decide (k ∈ ks) then ks else ks ++ [k]) [] keys.

(** The reader of a tuple of [n] value literals: [(v1, v2, ...)]. *)
Fixpoint read_values (n : nat) (s : str) : option (list (option str) * str) :=
  match n with
  | O => Some ([], s)
  | S n' =>
      match read_sql_value s with
      | Some (v, rest) =>
          match n' with
          | O => Some ([v], rest)
          | S _ =>
              match rest with
              | 44 :: 32 :: rest' =>                    (* ", " *)
                  match read_values n' rest' with
                  | Some (vs, tail) => Some (v :: vs, tail)
                  | None => None
                  end
              | _ => None
              end
          end
      | None => None
      end
  end.

Definition read_tuple (n : nat) (s : str) : option (list (option str) * str) :=
  match s with
  | 40 :: rest =>                                       (* ( *)
      match read_values n rest with
      | Some (vs, 41 :: tail) => Some (vs, tail)        (* ) *)
      | _ => None
      end
  | _ => None
  end.

(** * Properties *)

(** ** The sanitizer *)

Example sanitize_full_name `{PyUnicode} :
  sanitize_column_name (pystr "Full Name") = pystr "full_name".
Proof. reflexivity. Qed.

Example sanitize_sales `{PyUnicode} :
  sanitize_column_name (pystr " 2024  Sales!! ") = pystr "col_2024_sales_".
Proof. reflexivity. Qed.

Example sanitize_bangs `{PyUnicode} :
  sanitize_column_name (pystr "!!!") = pystr "_unnamed".
Proof. reflexivity. Qed.

Example str_of_int_12 : str_of_int 12 = pystr "12" /\ str_of_int 0 = pystr "0" /\ str_of_int (-7) = pystr "-7".
Proof. repeat split; reflexivity. Qed.

Lemma ident_char_ascii c : ident_char c = true -> is_ascii c = true.
Proof.
  unfold ident_char, ascii_islower, ascii_isdigit, is_ascii, underscore.
  intros H. apply N.ltb_lt.
  repeat (apply orb_prop in H; destruct H as [H | H]);
    try (apply andb_prop in H; destruct H as [_ H]; apply N.leb_le in H; lia).
  apply N.eqb_eq in H. lia.
Qed.

Lemma all_ident_sub_non_ident s : all_ident (sub_non_ident s).
Proof.
  unfold all_ident, sub_non_ident. apply Forall_fmap, Forall_forall.
  intros c _. simpl. destruct (ident_char c) eqn:E; [exact E | reflexivity].
Qed.

Lemma sub_underscore_runs_Forall (P : N -> Prop) s :
  Forall P s -> Forall P (sub_underscore_runs s).
Proof.
  induction 1 as [| c rest Hc Hrest IH]; simpl; [constructor |].
  destruct (c =? underscore).
  - destruct rest as [| d rest']; [by repeat constructor |].
    destruct (d =? underscore); [exact IH | by constructor].
  - by constructor.
Qed.

Lemma lstrip_by_Forall (P : N -> Prop) p s :
  Forall P s -> Forall P (lstrip_by p s).
Proof.
  induction 1 as [| c rest Hc Hrest IH]; simpl; [constructor |].
  destruct (p c); [exact IH | by constructor].
Qed.

Lemma lstrip_by_head p s c rest : lstrip_by p s = c :: rest -> p c = false.
Proof.
  induction s as [| d s IH]; simpl; [discriminate |].
  destruct (p d) eqn:E; [exact IH |]. intros [= -> _]. exact E.
Qed.

Lemma all_ident_pystr_col : all_ident (pystr "col_").
Proof. repeat constructor. Qed.

Lemma all_ident_pystr_unnamed : all_ident (pystr "_unnamed").
Proof. repeat constructor. Qed.

Section SanitizerFacts.
Context {U : PyUnicode}.

Lemma isdigit_ident c : ident_char c = true -> isdigit c = ascii_isdigit c.
Proof. intros H. unfold isdigit. by rewrite (ident_char_ascii c H). Qed.

Lemma sanitize_all_ident raw : all_ident (sanitize_column_name raw).
Proof.
  unfold sanitize_column_name.
  case_bool_decide; [apply all_ident_pystr_unnamed |].
  case_bool_decide; [apply all_ident_pystr_unnamed |].
  set (name := lstrip_underscore _).
  assert (Hname : all_ident name).
  { apply lstrip_by_Forall, sub_underscore_runs_Forall, all_ident_sub_non_ident. }
  apply Forall_take.
  destruct name as [| c rest]; [constructor |].
  destruct (isdigit c); [| exact Hname].
  apply Forall_app; split; [apply all_ident_pystr_col | exact Hname].
Qed.

Lemma sanitize_length raw :
  (length (sanitize_column_name raw) <= NAMEDATALEN_1)%nat.
Proof.
  unfold sanitize_column_name.
  case_bool_decide; [vm_compute; lia |].
  case_bool_decide; [vm_compute; lia |].
  rewrite length_take. lia.
Qed.

Lemma sanitize_shape raw : placeholder_or_letter (sanitize_column_name raw).
Proof.
  unfold sanitize_column_name.
  case_bool_decide; [by left |].
  case_bool_decide as Hne; [by left |]. right.
  set (name := lstrip_underscore _) in *.
  assert (Hname : all_ident name).
  { apply lstrip_by_Forall, sub_underscore_runs_Forall, all_ident_sub_non_ident. }
  destruct name as [| c rest] eqn:E; [done |].
  apply lstrip_by_head in E. apply Forall_cons in Hname as [Hc _].
  rewrite (isdigit_ident c Hc).
  destruct (ascii_isdigit c) eqn:Hd.
  - exists 99, (take 62 (pystr "ol_" ++ c :: rest)). by split.
  - exists c, (take 62 rest). split; [done |].
    unfold ident_char in Hc. rewrite Hd in Hc.
    rewrite N.eqb_sym, E in Hc. by destruct (ascii_islower c).
Qed.
End SanitizerFacts.

(** C2, as the code has it: for every input string, [sanitize_column_name]
    returns (it is a total function) a string of at most 63 characters, all
    of them lowercase letters, digits or underscores, that is either the
    placeholder [_unnamed] or starts with a lowercase letter; so it never
    starts with a digit ([col_] is put in front of one), and starts with an
    underscore only when it is the placeholder. *)
Theorem sanitize_column_name_wellformed `{PyUnicode} (raw : str) :
  (length (sanitize_column_name raw) <= 63)%nat /\
  all_ident (sanitize_column_name raw) /\
  (sanitize_column_name raw = pystr "_unnamed" \/
   exists c rest, sanitize_column_name raw = c :: rest /\
     ascii_islower c = true /\ c <> underscore /\ isdigit c = false).
Proof.
  split; [apply sanitize_length |]. split; [apply sanitize_all_ident |].
  destruct (sanitize_shape raw) as [-> | (c & rest & -> & Hc)]; [by left |].
  right. exists c, rest. split; [done |]. split; [done |].
  assert (Hi : ident_char c = true) by (unfold ident_char; by rewrite Hc).
  rewrite (isdigit_ident c Hi).
  unfold ascii_islower, ascii_isdigit, underscore in *.
  apply andb_prop in Hc as [H1 H2]. apply N.leb_le in H1.
  split; [lia |]. apply andb_false_iff. right. apply N.leb_gt. lia.
Qed.

(** C2 as stated fails: the empty header is sanitized to [_unnamed], which
    starts with an underscore. *)
Lemma sanitize_column_name_leading_underscore :
  @sanitize_column_name ascii_tables (pystr "") = pystr "_unnamed" /\
  head (@sanitize_column_name ascii_tables (pystr "")) = Some underscore.
Proof. split; reflexivity. Qed.

(** ** The column mapping *)

Lemma is_Some_insert_present (seen : gmap (list N) Z) b k v x :
  seen !! b = Some k -> is_Some (<[b := v]> seen !! x) <-> is_Some (seen !! x).
Proof.
  intros Hb. destruct (decide (b = x)) as [<- | Hne].
  - rewrite lookup_insert_eq, Hb. split; eauto.
  - by rewrite lookup_insert_ne.
Qed.

Lemma taken_snoc result h name x :
  x ∈ taken (result ++ [(h, name)]) <-> x ∈ taken result \/ x = name.
Proof.
  unfold taken. rewrite fmap_app. simpl.
  rewrite !elem_of_cons, elem_of_app, list_elem_of_singleton. tauto.
Qed.

Lemma taken_snoc_nodup result h name :
  NoDup (taken result) -> name ∉ taken result ->
  NoDup (taken (result ++ [(h, name)])).
Proof.
  unfold taken. intros Hnd Hnot. rewrite fmap_app. simpl.
  change (NoDup ((pystr "id" :: result.*2) ++ [name])).
  apply NoDup_app. split; [done |]. split; [| apply NoDup_singleton].
  intros x Hx ->%list_elem_of_singleton. done.
Qed.

Lemma while_candidate_spec base fuel :
  forall (seen : gmap (list N) Z) k seen' cand',
    seen !! base = Some k ->
    while_candidate_in_seen fuel seen base (candidate_name base k)
      = Returns (seen', cand') ->
    exists k', (k <= k')%Z /\ seen' = <[base := k']> seen /\
      cand' = candidate_name base k' /\ seen !! cand' = None /\
      forall m, (k <= m < k')%Z -> is_Some (seen !! candidate_name base m).
Proof.
  induction fuel as [| fuel IH]; intros seen k seen' cand' Hk; simpl;
    [discriminate |].
  case_bool_decide as Hin.
  - unfold next_candidate. rewrite Hk. simpl. intros Hw.
    apply IH in Hw; [| by rewrite lookup_insert_eq].
    destruct Hw as (k' & Hle & -> & -> & Hnone & Hbetween).
    exists k'. split; [lia |]. split; [by rewrite insert_insert_eq |].
    split; [done |].
    split.
    { destruct (seen !! candidate_name base k') eqn:E; [| done].
      assert (Hs : is_Some (<[base:=(k + 1)%Z]> seen !! candidate_name base k')).
      { eapply is_Some_insert_present; eauto. }
      rewrite Hnone in Hs. by destruct Hs. }
    intros m Hm. destruct (decide (m = k)) as [-> | Hne]; [done |].
    eapply is_Some_insert_present; [exact Hk |]. apply Hbetween. lia.
  - intros [= <- <-]. exists k. split; [lia |].
    split; [by rewrite insert_id |]. split; [done |].
    split; [| intros m Hm; lia].
    destruct (seen !! candidate_name base k) eqn:E; [| done].
    exfalso. apply Hin. eauto.
Qed.

Example bcm_emails `{PyUnicode} :
  build_column_map 1 [pystr "Email"; pystr "email"; pystr "EMAIL"]
  = Returns [(pystr "Email", pystr "email"); (pystr "email", pystr "email_2");
             (pystr "EMAIL", pystr "email_3")].
Proof. vm_compute. reflexivity. Qed.

Example bcm_id `{PyUnicode} :
  build_column_map 1 [pystr "Id"; pystr "id_2"; pystr "ID"]
  = Returns [(pystr "Id", pystr "id_2"); (pystr "id_2", pystr "id_2_2");
             (pystr "ID", pystr "id_3")].
Proof. vm_compute. reflexivity. Qed.

Section ColumnMapFacts.
Context {U : PyUnicode}.

Lemma assignments_ok_snoc result h name :
  assignments_ok result ->
  assigned_as (taken result) (sanitize_column_name h) name ->
  assignments_ok (result ++ [(h, name)]).
Proof.
  intros Hok Hnew i h' name' Hi.
  apply lookup_snoc_Some in Hi as [[Hlt Hi] | [-> [= <- <-]]].
  - rewrite take_app_le by lia. by apply Hok.
  - by rewrite take_app_length.
Qed.

Lemma column_step_spec fuel seen result header seen' result' :
  column_inv seen result -> assignments_ok result ->
  column_step fuel (seen, result) header = Returns (seen', result') ->
  column_inv seen' result' /\ assignments_ok result' /\
  exists name, result' = result ++ [(header, name)].
Proof.
  intros [Hdom Hcount Hnd] Hok. unfold column_step.
  set (base := sanitize_column_name header).
  case_bool_decide as Hfresh.
  - (* the base name is free *)
    intros [= <- <-].
    assert (Hnot : base ∉ taken result).
    { intros Hin%Hdom. rewrite Hfresh in Hin. by destruct Hin. }
    split; [| split; [| by eexists]].
    + split.
      * intros x. rewrite taken_snoc, <- Hdom.
        destruct (decide (base = x)) as [<- | Hne].
        -- rewrite lookup_insert_eq. split; eauto.
        -- rewrite lookup_insert_ne by done. split; [eauto | intros [? | ?]; [done | congruence]].
      * intros b k. destruct (decide (base = b)) as [<- | Hne].
        -- rewrite lookup_insert_eq. intros [= <-]. split; [lia | intros; lia].
        -- rewrite lookup_insert_ne by done. intros [Hk Hm]%Hcount.
           split; [done |]. intros m Hr. apply taken_snoc. left. by apply Hm.
      * by apply taken_snoc_nodup.
    + apply assignments_ok_snoc; [done |]. by left.
  - (* the base name is taken *)
    destruct (seen !! base) as [k0 |] eqn:Hbase; [| done].
    unfold next_candidate. rewrite Hbase. simpl.
    destruct (while_candidate_in_seen _ _ _ _) as [[seen2 cand] | |] eqn:Hw;
      simpl; [| discriminate | discriminate].
    intros [= <- <-].
    apply while_candidate_spec in Hw; [| by rewrite lookup_insert_eq].
    destruct Hw as (k' & Hle & -> & -> & Hnone & Hbetween).
    rewrite insert_insert_eq.
    set (cand := candidate_name base k') in *.
    destruct (Hcount _ _ Hbase) as [Hk0 Hbelow].
    assert (Hne : cand <> base).
    { intros E. rewrite E, lookup_insert_eq in Hnone. done. }
    rewrite lookup_insert_ne in Hnone by done.
    assert (Hnot : cand ∉ taken result).
    { intros Hin%Hdom. rewrite Hnone in Hin. by destruct Hin. }
    assert (Hall : forall m, (2 <= m < k')%Z -> candidate_name base m ∈ taken result).
    { intros m Hm. destruct (decide (m <= k0)%Z); [apply Hbelow; lia |].
      apply Hdom. eapply is_Some_insert_present; [exact Hbase |].
      apply Hbetween. lia. }
    split; [| split; [| by eexists]].
    + split.
      * intros x. rewrite taken_snoc, <- Hdom.
        destruct (decide (cand = x)) as [<- | Hx].
        -- rewrite lookup_insert_eq. split; eauto.
        -- rewrite lookup_insert_ne by done.
           rewrite (is_Some_insert_present seen base k0 k' x Hbase).
           split; [eauto | intros [? | ?]; [done | congruence]].
      * intros b k. destruct (decide (cand = b)) as [<- | Hb].
        { rewrite lookup_insert_eq. intros [= <-]. split; [lia | intros; lia]. }
        rewrite lookup_insert_ne by done.
        destruct (decide (base = b)) as [<- | Hb'].
        { rewrite lookup_insert_eq. intros [= <-]. split; [lia |].
          intros m Hm. apply taken_snoc.
          destruct (decide (m = k')) as [-> | ?]; [by right |].
          left. apply Hall. lia. }
        rewrite lookup_insert_ne by done. intros [Hk Hm]%Hcount.
        split; [done |]. intros m Hr. apply taken_snoc. left. by apply Hm.
      * by apply taken_snoc_nodup.
    + apply assignments_ok_snoc; [done |]. right.
      split; [apply Hdom; eauto |].
      exists k'. split; [lia |]. split; [done |]. split; [done |]. exact Hall.
Qed.

Lemma for_headers_spec fuel headers :
  forall seen result seen' result',
    column_inv seen result -> assignments_ok result ->
    for_headers fuel headers (seen, result) = Returns (seen', result') ->
    column_inv seen' result' /\ assignments_ok result' /\
    result'.*1 = result.*1 ++ headers.
Proof.
  induction headers as [| h headers IH]; intros seen result seen' result' Hinv Hok.
  - intros [= <- <-]. by rewrite app_nil_r.
  - change (for_headers fuel (h :: headers) (seen, result))
      with (column_step fuel (seen, result) h ≫= for_headers fuel headers).
    destruct (column_step fuel (seen, result) h) as [[seen1 result1] | |] eqn:Hstep;
      simpl; [| discriminate | discriminate].
    intros Hrest.
    apply column_step_spec in Hstep as (Hinv1 & Hok1 & name & ->); [| done | done].
    apply IH in Hrest as (? & ? & ->); [| done | done].
    split; [done |]. split; [done |].
    by rewrite fmap_app, <- app_assoc.
Qed.

Lemma column_inv_init : column_inv {[ pystr "id" := 1%Z ]} [].
Proof.
  split.
  - intros x. unfold taken. simpl. rewrite list_elem_of_singleton.
    destruct (decide (pystr "id" = x)) as [<- | Hne].
    + rewrite lookup_singleton_eq. split; eauto.
    + rewrite lookup_singleton_ne by done. split; [by intros [] | congruence].
  - intros b k. destruct (decide (pystr "id" = b)) as [<- | Hne].
    + rewrite lookup_singleton_eq. intros [= <-]. split; [lia | intros; lia].
    + by rewrite lookup_singleton_ne.
  - apply NoDup_singleton.
Qed.

Lemma build_column_map_spec fuel headers result :
  build_column_map fuel headers = Returns result ->
  NoDup (taken result) /\ assignments_ok result /\ result.*1 = headers.
Proof.
  unfold build_column_map.
  destruct (for_headers _ _ _) as [[seen' result'] | |] eqn:Hfor;
    simpl; [| discriminate | discriminate].
  intros [= <-].
  apply for_headers_spec in Hfor as ([] & ? & ?);
    [done | apply column_inv_init | by intros i h name].
Qed.
End ColumnMapFacts.

(** [build_column_map] keeps no [seen[base]] lookup that can fail, and more
    fuel never changes what it returns. *)
Section ColumnMapRuns.
Context {U : PyUnicode}.

Lemma while_candidate_no_raise base fuel :
  forall (seen : gmap (list N) Z) cand e,
    is_Some (seen !! base) ->
    while_candidate_in_seen fuel seen base cand <> Raises e.
Proof.
  induction fuel as [| fuel IH]; intros seen cand e [k Hk]; simpl; [done |].
  case_bool_decide; [| done].
  unfold next_candidate. rewrite Hk. simpl.
  apply IH. rewrite lookup_insert_eq. eauto.
Qed.

Lemma column_step_no_raise fuel st header e :
  column_step fuel st header <> Raises e.
Proof.
  destruct st as [seen result]. unfold column_step.
  case_bool_decide as Hfresh; [done |].
  destruct (seen !! sanitize_column_name header) as [k |] eqn:Hk; [| done].
  unfold next_candidate. rewrite Hk. cbn [mbind outcome_bind].
  destruct (while_candidate_in_seen _ _ _ _) as [[seen2 cand] | e' |] eqn:Hw;
    cbn [mbind outcome_bind]; [done | | done].
  exfalso. eapply while_candidate_no_raise; [| exact Hw].
  rewrite lookup_insert_eq. eauto.
Qed.

Lemma for_headers_no_raise fuel headers :
  forall st e, for_headers fuel headers st <> Raises e.
Proof.
  induction headers as [| h headers IH]; intros st e; [done |].
  change (for_headers fuel (h :: headers) st)
    with (column_step fuel st h ≫= for_headers fuel headers).
  destruct (column_step fuel st h) as [st1 | e' |] eqn:Hstep;
    cbn [mbind outcome_bind]; [apply IH | | done].
  exfalso. by eapply column_step_no_raise.
Qed.

Lemma build_column_map_no_raise fuel headers e :
  build_column_map fuel headers <> Raises e.
Proof.
  unfold build_column_map.
  destruct (for_headers fuel headers _) as [[seen result] | e' |] eqn:Hfor;
    cbn [mbind outcome_bind]; [done | | done].
  exfalso. by eapply for_headers_no_raise.
Qed.

Lemma while_candidate_fuel_mono base fuel :
  forall fuel' (seen : gmap (list N) Z) cand r,
    (fuel <= fuel')%nat ->
    while_candidate_in_seen fuel seen base cand = Returns r ->
    while_candidate_in_seen fuel' seen base cand = Returns r.
Proof.
  induction fuel as [| fuel IH]; intros fuel' seen cand r Hle; simpl; [done |].
  destruct fuel' as [| fuel']; [lia |]. simpl.
  case_bool_decide; [| done].
  destruct (next_candidate seen base) as [[seen1 cand1] | |]; simpl; [| done | done].
  apply IH. lia.
Qed.

Lemma column_step_fuel_mono fuel fuel' st header r :
  (fuel <= fuel')%nat ->
  column_step fuel st header = Returns r ->
  column_step fuel' st header = Returns r.
Proof.
  intros Hle. destruct st as [seen result]. unfold column_step.
  case_bool_decide; [done |].
  destruct (next_candidate _ _) as [[seen1 cand1] | |]; simpl; [| done | done].
  destruct (while_candidate_in_seen fuel _ _ _) as [[seen2 cand2] | |] eqn:Hw;
    simpl; [| done | done].
  by rewrite (while_candidate_fuel_mono _ _ _ _ _ _ Hle Hw).
Qed.

Lemma for_headers_fuel_mono fuel fuel' headers :
  forall st r, (fuel <= fuel')%nat ->
    for_headers fuel headers st = Returns r ->
    for_headers fuel' headers st = Returns r.
Proof.
  induction headers as [| h headers IH]; intros st r Hle; [done |].
  change (for_headers fuel (h :: headers) st)
    with (column_step fuel st h ≫= for_headers fuel headers).
  change (for_headers fuel' (h :: headers) st)
    with (column_step fuel' st h ≫= for_headers fuel' headers).
  destruct (column_step fuel st h) as [st1 | |] eqn:Hstep; simpl; [| done | done].
  rewrite (column_step_fuel_mono _ _ _ _ _ Hle Hstep). simpl. by apply IH.
Qed.

Lemma build_column_map_fuel_mono fuel fuel' headers result :
  (fuel <= fuel')%nat ->
  build_column_map fuel headers = Returns result ->
  build_column_map fuel' headers = Returns result.
Proof.
  intros Hle. unfold build_column_map.
  destruct (for_headers fuel _ _) as [[seen1 result1] | |] eqn:Hfor;
    simpl; [| done | done].
  by rewrite (for_headers_fuel_mono _ _ _ _ _ Hle Hfor).
Qed.

(** A base name of full length makes every candidate equal to the base,
    which is in [seen]: the loop runs for ever. *)
Lemma candidate_name_full base n :
  length base = NAMEDATALEN_1 -> candidate_name base n = base.
Proof. intros Hlen. unfold candidate_name. by apply take_app_length'. Qed.

Lemma while_candidate_full_base base fuel :
  forall (seen : gmap (list N) Z),
    length base = NAMEDATALEN_1 -> is_Some (seen !! base) ->
    while_candidate_in_seen fuel seen base base = NoFuel.
Proof.
  induction fuel as [| fuel IH]; intros seen Hlen [k Hk]; simpl; [done |].
  rewrite bool_decide_eq_true_2 by eauto.
  unfold next_candidate. rewrite Hk. simpl.
  rewrite candidate_name_full by done.
  apply IH; [done |]. rewrite lookup_insert_eq. eauto.
Qed.
End ColumnMapRuns.

Lemma original_of_lookup (col_map : list (str * str)) :
  forall i h name,
    NoDup col_map.*2 -> col_map !! i = Some (h, name) ->
    original_of col_map name = Some h.
Proof.
  induction col_map as [| [o s] rest IH]; intros i h name Hnd Hi; [done |].
  simpl in Hnd. apply NoDup_cons in Hnd as [Hs Hnd]. simpl.
  destruct i as [| i]; simpl in Hi.
  - injection Hi as -> ->. by rewrite bool_decide_eq_true_2.
  - case_bool_decide as E; [| by eapply IH].
    exfalso. apply Hs. subst s.
    apply (list_elem_of_fmap_2' snd _ (h, name)); [| done].
    by eapply list_elem_of_lookup_2.
Qed.

(** C1: whenever [build_column_map] returns, the sanitized identifiers of
    the pairs are pairwise distinct and none is the reserved [id]; the
    identifier at each position is the sanitized base name when that is not
    taken yet, and otherwise the 63-character prefix of [base_n] for the
    least [n >= 2] whose prefix is not taken ([id] and the identifiers of the
    earlier positions are the taken ones).  [Email], [email], [EMAIL] map to
    [email], [email_2], [email_3]. *)
Theorem build_column_map_distinct `{PyUnicode} :
  (forall fuel headers result,
     build_column_map fuel headers = Returns result ->
     NoDup result.*2 /\ (pystr "id" ∉ result.*2) /\
     forall (i : nat) (h name : str), result !! i = Some (h, name) ->
       assigned_as (pystr "id" :: (take i result).*2)
                   (sanitize_column_name h) name) /\
  (forall fuel,
     build_column_map (S fuel) [pystr "Email"; pystr "email"; pystr "EMAIL"]
     = Returns [(pystr "Email", pystr "email"); (pystr "email", pystr "email_2");
                (pystr "EMAIL", pystr "email_3")]).
Proof.
  split.
  - intros fuel headers result Hret.
    apply build_column_map_spec in Hret as (Hnd & Hok & _).
    unfold taken in Hnd. apply NoDup_cons in Hnd as [Hid Hnd]. done.
  - intros fuel.
    apply (build_column_map_fuel_mono 1); [lia |]. vm_compute. reflexivity.
Qed.

Lemma build_column_map_distinct_witness :
  @build_column_map ascii_tables 1 [pystr "Id"; pystr "id_2"; pystr "ID"]
    = Returns [(pystr "Id", pystr "id_2"); (pystr "id_2", pystr "id_2_2");
               (pystr "ID", pystr "id_3")] /\
  NoDup [pystr "id_2"; pystr "id_2_2"; pystr "id_3"] /\
  (pystr "id" ∉ [pystr "id_2"; pystr "id_2_2"; pystr "id_3"]).
Proof.
  split; [vm_compute; reflexivity |].
  pose proof (proj1 (@build_column_map_distinct ascii_tables) 1%nat
    [pystr "Id"; pystr "id_2"; pystr "ID"]
    [(pystr "Id", pystr "id_2"); (pystr "id_2", pystr "id_2_2");
     (pystr "ID", pystr "id_3")] ltac:(vm_compute; reflexivity)) as (Hnd & Hid & _).
  split; [exact Hnd | exact Hid].
Defined.

(** C8: whenever [build_column_map] returns, the pair recorded at each
    position carries the header of that position, and looking up its
    sanitized name among the recorded pairs gives that header back. *)
Theorem build_column_map_roundtrip `{PyUnicode} fuel headers result :
  build_column_map fuel headers = Returns result ->
  forall (i : nat) (h name : str), result !! i = Some (h, name) ->
    headers !! i = Some h /\ original_of result name = Some h.
Proof.
  intros Hret i h name Hi.
  apply build_column_map_spec in Hret as (Hnd & _ & <-).
  unfold taken in Hnd. apply NoDup_cons in Hnd as [_ Hnd]. split.
  - by rewrite list_lookup_fmap, Hi.
  - by eapply original_of_lookup.
Qed.

Lemma build_column_map_roundtrip_witness :
  original_of [(pystr "Email", pystr "email"); (pystr "email", pystr "email_2")]
    (pystr "email_2") = Some (pystr "email").
Proof.
  exact (proj2 (@build_column_map_roundtrip ascii_tables 1%nat
    [pystr "Email"; pystr "email"]
    [(pystr "Email", pystr "email"); (pystr "email", pystr "email_2")]
    ltac:(vm_compute; reflexivity) 1%nat (pystr "email") (pystr "email_2")
    ltac:(reflexivity))).
Defined.

(** C3, where it holds: a call that returns gives one pair per header, in
    the order of the headers, each carrying its header. *)
Lemma build_column_map_headers `{PyUnicode} fuel headers result :
  build_column_map fuel headers = Returns result -> result.*1 = headers.
Proof. intros Hret. by apply build_column_map_spec in Hret as (_ & _ & ?). Qed.

(** Two headers with the same sanitized name of 63 letters: the second
    never gets a candidate. *)
Lemma long_headers_never_return `{PyUnicode}
    (fuel : nat) (rest : list str) :
  build_column_map fuel (long_header :: LONG_HEADER :: rest) = NoFuel.
Proof.
  unfold build_column_map.
  change (for_headers fuel (long_header :: LONG_HEADER :: rest)
            ({[pystr "id" := 1%Z]}, []))
    with (column_step fuel ({[pystr "id" := 1%Z]}, []) long_header
          ≫= fun st => column_step fuel st LONG_HEADER ≫= for_headers fuel rest).
  assert (Hsan : sanitize_column_name long_header = long_header)
    by (vm_compute; reflexivity).
  assert (Hsan' : sanitize_column_name LONG_HEADER = long_header)
    by (vm_compute; reflexivity).
  assert (Hfirst : column_step fuel ({[pystr "id" := 1%Z]}, []) long_header
            = Returns (<[long_header := 1%Z]> {[pystr "id" := 1%Z]},
                       [(long_header, long_header)])).
  { unfold column_step. rewrite Hsan.
    by rewrite bool_decide_eq_true_2 by (vm_compute; reflexivity). }
  rewrite Hfirst. cbn [mbind outcome_bind].
  unfold column_step. rewrite Hsan'.
  rewrite bool_decide_eq_false_2 by (rewrite lookup_insert_eq; discriminate).
  unfold next_candidate. rewrite lookup_insert_eq. cbn [mbind outcome_bind].
  rewrite candidate_name_full by reflexivity.
  rewrite while_candidate_full_base; [done | reflexivity |].
  rewrite lookup_insert_eq. eauto.
Qed.

(** C3 fails on the code: once two headers are sanitized to the same 63
    letters, the [while] loop of [build_column_map] never finds a free
    candidate (every candidate is cut back to the base name itself), so the
    call does not return, whatever the fuel and whatever headers follow. *)
Theorem build_column_map_long_header_diverges `{PyUnicode}
    (fuel : nat) (rest : list str) :
  build_column_map fuel (long_header :: LONG_HEADER :: rest) = NoFuel.
Proof. apply long_headers_never_return. Qed.

(** ** The row filter *)

Section RowFilterFacts.
Context {U : PyUnicode}.

Lemma filter_rows_from_spec rows :
  forall kept, filter_rows_from rows kept = kept ++ filter eligible rows.
Proof.
  induction rows as [| r rows IH]; intros kept; cbn [filter_rows_from].
  - by rewrite filter_nil, app_nil_r.
  - case_bool_decide as Hdeny.
    { rewrite IH, filter_cons_False; [done |]. by intros [Hid _]. }
    destruct (decide (strip (dict_get r (pystr "email_address") []) = [])) as [He | He];
      [rewrite (bool_decide_eq_true_2 _ He) | rewrite (bool_decide_eq_false_2 _ He)];
      cbn [andb].
    + case_bool_decide as Hp.
      * rewrite IH, filter_cons_False; [done |].
        intros [_ [? | ?]]; done.
      * rewrite IH, filter_cons_True, <- app_assoc; [done |].
        split; [done | by right].
    + rewrite IH, filter_cons_True, <- app_assoc; [done |].
      split; [done | by left].
Qed.

Lemma filter_rows_spec rows : filter_rows rows = filter eligible rows.
Proof. unfold filter_rows. by rewrite filter_rows_from_spec. Qed.

(** A key that is absent reads like a key that holds the empty string. *)
Lemma dict_get_absent_as_empty (r : row) k k' :
  dict_lookup r k = None -> dict_get ((k, []) :: r) k' [] = dict_get r k' [].
Proof.
  intros Habs. unfold dict_get. simpl.
  case_bool_decide as E; [| done]. subst k'. by rewrite Habs.
Qed.
End RowFilterFacts.

(** C6: [filter_rows] keeps exactly the rows whose identity pair is not in
    the denylist and that have a non-empty trimmed email address or phone
    number, in the order of the input; of the John/Doe row without contact
    and the row with an email address it keeps the second only. *)
Theorem filter_rows_keeps_eligible `{PyUnicode} :
  (forall rows, filter_rows rows = filter eligible rows) /\
  (forall rows r,
     r ∈ filter_rows rows <->
     r ∈ rows /\
     ((lower (strip (dict_get r (pystr "given_name") [])),
       lower (strip (dict_get r (pystr "family_name") []))) ∉ TEST_ENTRIES) /\
     (strip (dict_get r (pystr "email_address") []) <> [] \/
      strip (dict_get r (pystr "phone_number") []) <> [])) /\
  filter_rows [john_doe_row; a_b_row] = [a_b_row].
Proof.
  split; [apply filter_rows_spec |]. split.
  - intros rows r. rewrite filter_rows_spec, list_elem_of_filter.
    unfold eligible, identity, has_contact. tauto.
  - vm_compute. reflexivity.
Qed.

(** C9: filtering the output of [filter_rows] again changes nothing, and
    the output is the input with some rows left out, the others in their
    order. *)
Theorem filter_rows_idempotent `{PyUnicode} (rows : list row) :
  filter_rows (filter_rows rows) = filter_rows rows /\
  filter_rows rows `sublist_of` rows.
Proof.
  rewrite !filter_rows_spec. split.
  - by apply list_filter_filter_l.
  - apply sublist_filter.
Qed.

(** C10: [rows_to_values] gives one list per row, as long as the header
    list; the value of a header is null when the row lacks the key and when
    the row holds the empty string for it, and the cell text otherwise; keys
    outside the header list do not matter.  For [filter_rows] too a missing
    field reads as the empty string, so a row without both contact keys is
    dropped. *)
Theorem rows_to_values_aligned `{PyUnicode} :
  (forall rows headers,
     length (rows_to_values rows headers) = length rows /\
     Forall (fun vals => length vals = length headers)
            (rows_to_values rows headers)) /\
  (forall rows headers (i j : nat) (r : row) (h : str),
     rows !! i = Some r -> headers !! j = Some h ->
     exists vals, rows_to_values rows headers !! i = Some vals /\
       vals !! j = Some match dict_lookup r h with
                        | None | Some [] => PyNone
                        | Some v => PyStr v
                        end) /\
  (forall (r r' : row) headers,
     (forall h, h ∈ headers -> dict_lookup r h = dict_lookup r' h) ->
     rows_to_values [r] headers = rows_to_values [r'] headers) /\
  (forall (r : row) k, dict_lookup r k = None ->
     (forall headers,
        rows_to_values [(k, []) :: r] headers = rows_to_values [r] headers) /\
     (eligible ((k, []) :: r) <-> eligible r)) /\
  (forall rows (r : row),
     dict_lookup r (pystr "email_address") = None ->
     dict_lookup r (pystr "phone_number") = None ->
     r ∉ filter_rows rows).
Proof.
  split; [| split; [| split; [| split]]].
  - intros rows headers. unfold rows_to_values. split; [by rewrite length_fmap |].
    apply Forall_fmap, Forall_forall. intros r _. simpl.
    by rewrite length_fmap.
  - intros rows headers i j r h Hi Hj. unfold rows_to_values.
    rewrite list_lookup_fmap, Hi. simpl. eexists. split; [done |].
    rewrite list_lookup_fmap, Hj. simpl. f_equal.
    unfold dict_get. destruct (dict_lookup r h) as [[| c v] |]; done.
  - intros r r' headers Hagree. unfold rows_to_values. simpl. f_equal.
    apply list_fmap_ext. intros j h Hj. unfold dict_get.
    rewrite (Hagree h); [done |]. by eapply list_elem_of_lookup_2.
  - intros r k Habs. split.
    + intros headers. unfold rows_to_values. simpl. f_equal.
      apply list_fmap_ext. intros j h Hj.
      by rewrite dict_get_absent_as_empty.
    + unfold eligible, identity, has_contact.
      by rewrite !dict_get_absent_as_empty.
  - intros rows r He Hp Hr. rewrite filter_rows_spec in Hr.
    apply list_elem_of_filter in Hr as [[_ Hc] _].
    unfold has_contact, dict_get in Hc. rewrite He, Hp in Hc.
    simpl in Hc. destruct Hc as [Hc | Hc]; by apply Hc.
Qed.

Lemma rows_to_values_aligned_witness :
  [(pystr "given_name", pystr "A")]
    ∉ @filter_rows ascii_tables [[(pystr "given_name", pystr "A")]].
Proof.
  apply (proj2 (proj2 (proj2 (proj2 (@rows_to_values_aligned ascii_tables)))));
    reflexivity.
Defined.

(** ** The SQL builder *)

Lemma replace_quote_double_quotes s : replace_quote s = double_quotes s.
Proof.
  unfold replace_quote. induction s as [| c rest IH]; [done |].
  rewrite bind_cons, IH. simpl. by destruct (c =? quote).
Qed.

Lemma escape_sql_value_literal v : escape_sql_value v = sql_literal v.
Proof.
  destruct v; simpl; [done | | |]; by rewrite replace_quote_double_quotes.
Qed.

Lemma build_values_clause_tuples value_rows :
  build_values_clause value_rows
  = join (pystr "," ++ nl) (value_tuple <$> value_rows).
Proof.
  unfold build_values_clause. f_equal. apply list_fmap_ext.
  intros i r _. unfold value_tuple. do 3 f_equal. apply list_fmap_ext.
  intros j v _. apply escape_sql_value_literal.
Qed.

(** C4: the text [build_full_sql] returns is the drop statement, the create
    statement (the [id] primary key, then a [TEXT] column per identifier, in
    order) and the insert statement (the identifiers in the same order, a
    tuple per row), one per line group; a value that is [None] is written
    [NULL], any other value as its text between single quotes with every
    single quote of it doubled.  For table [people], columns [name] and
    [email] and the two rows of the specification, the second tuple starts
    with [NULL]. *)
Theorem build_full_sql_statements :
  (forall table cols value_rows,
     build_full_sql table cols value_rows
     = drop_statement table ++ nl ++ create_statement table cols ++ nl
       ++ insert_statement table cols value_rows) /\
  escape_sql_value PyNone = pystr "NULL" /\
  (forall v, v <> PyNone ->
     escape_sql_value v = [quote] ++ double_quotes (py_str v) ++ [quote]) /\
  escape_sql_value (PyStr (pystr "O'Neil")) = pystr "'O''Neil'" /\
  build_values_clause
    [ [PyStr (pystr "Ann"); PyStr (pystr "a@x.com")];
      [PyNone; PyStr (pystr "b@x.com")] ]
  = pystr "('Ann', 'a@x.com')," ++ nl ++ pystr "(NULL, 'b@x.com')" /\
  build_full_sql (pystr "people") [pystr "name"; pystr "email"]
    [ [PyStr (pystr "Ann"); PyStr (pystr "a@x.com")];
      [PyNone; PyStr (pystr "b@x.com")] ]
  = pystr "DROP TABLE IF EXISTS " ++ dquote ++ pystr "people" ++ dquote ++ pystr ";" ++ nl
    ++ pystr "CREATE TABLE " ++ dquote ++ pystr "people" ++ dquote ++ pystr " (" ++ nl
    ++ pystr "    id SERIAL PRIMARY KEY," ++ nl
    ++ pystr "    " ++ dquote ++ pystr "name" ++ dquote ++ pystr " TEXT," ++ nl
    ++ pystr "    " ++ dquote ++ pystr "email" ++ dquote ++ pystr " TEXT" ++ nl
    ++ pystr ");" ++ nl
    ++ pystr "INSERT INTO " ++ dquote ++ pystr "people" ++ dquote
    ++ pystr " (" ++ dquote ++ pystr "name" ++ dquote ++ pystr ", "
    ++ dquote ++ pystr "email" ++ dquote ++ pystr ") VALUES" ++ nl
    ++ pystr "('Ann', 'a@x.com')," ++ nl
    ++ pystr "(NULL, 'b@x.com');".
Proof.
  split; [| split; [| split; [| split; [| split]]]].
  - intros table cols value_rows. unfold build_full_sql.
    rewrite build_values_clause_tuples.
    assert (Hddl : (fun col => dquote ++ col ++ dquote ++ pystr " TEXT") <$> cols
                   = (fun col => quoted col ++ pystr " TEXT") <$> cols).
    { apply list_fmap_ext. intros i col _. unfold quoted. by rewrite <- !app_assoc. }
    rewrite Hddl.
    unfold drop_statement, create_statement, insert_statement, quoted.
    by rewrite <- !app_assoc.
  - reflexivity.
  - intros v Hv. rewrite escape_sql_value_literal. by destruct v.
  - reflexivity.
  - reflexivity.
  - reflexivity.
Qed.

Lemma build_full_sql_statements_witness :
  escape_sql_value (PyInt 7) = pystr "'7'".
Proof.
  exact (proj1 (proj2 (proj2 build_full_sql_statements)) (PyInt 7)
           ltac:(discriminate)).
Defined.

(** ** The drivers *)

(** C7: with its settings present, a run of the create/replace driver that
    finds no row in the file, or none left after filtering, prints a message
    and ends with exit status zero, and its trace holds no call to the
    database service. *)
Theorem create_main_empty_is_success `{PyUnicode}
    (fuel : nat) (cfg : Create.config) (rows : list row) (resp : response) :
  unset (Create.PROJECT_REF cfg) = false ->
  unset (Create.MANAGEMENT_KEY cfg) = false ->
  unset (Create.TABLE_NAME cfg) = false ->
  filter_rows rows = [] ->
  exists tr line,
    run (Create.main fuel cfg (FileJson (JArray rows)) resp) = (tr, Exit 0) /\
    exit_status (Exit 0) = Some 0%Z /\
    last tr = Some (EvPrint line) /\
    no_database_call tr /\
    tr = if bool_decide (rows = [])
         then [EvStat; EvRead;
               EvPrint "sheet_data.json is empty - nothing to insert."]
         else [EvStat; EvRead; EvPrint "Filtered";
               EvPrint "No rows left after filtering - nothing to insert."].
Proof.
  intros H1 H2 H3 Hnone. unfold Create.main. rewrite H1, H2, H3.
  destruct rows as [| r rows].
  - do 2 eexists. split; [reflexivity |]. split; [reflexivity |].
    split; [reflexivity |]. split; [| reflexivity]. repeat constructor.
  - cbn [Create.load_rows mbind io_bind emit mret io_ret app].
    rewrite (bool_decide_eq_false_2 (r :: rows = [])) by discriminate.
    rewrite Hnone.
    do 2 eexists. split; [reflexivity |]. split; [reflexivity |].
    split; [reflexivity |]. split; [| reflexivity]. repeat constructor.
Qed.

Lemma create_main_empty_is_success_witness :
  exists tr line,
    run (@Create.main ascii_tables 1 create_config_ok
           (FileJson (JArray [john_doe_row])) response_ok) = (tr, Exit 0) /\
    exit_status (Exit 0) = Some 0%Z /\
    last tr = Some (EvPrint line) /\
    no_database_call tr /\
    tr = [EvStat; EvRead; EvPrint "Filtered";
          EvPrint "No rows left after filtering - nothing to insert."].
Proof.
  exact (@create_main_empty_is_success ascii_tables 1 create_config_ok
           [john_doe_row] response_ok eq_refl eq_refl eq_refl eq_refl).
Defined.

Lemma upsert_main_no_database_call_without_client cfg file answer :
  unset (Upsert.SUPABASE_URL cfg) || unset (Upsert.SUPABASE_KEY cfg) = true ->
  no_database_call (run (Upsert.main cfg file answer)).1.
Proof.
  intros Hcl. unfold Upsert.main, Upsert.get_client. rewrite Hcl.
  destruct (unset (Upsert.TABLE_NAME cfg) || unset (Upsert.PK_COLUMN cfg));
    [constructor |].
  destruct file as [| | j]; [repeat constructor | repeat constructor |].
  cbn [mbind io_bind emit app].
  destruct (truthy j); cbn [negb]; [| repeat constructor].
  destruct (Upsert.COLUMN_MAP cfg); [| repeat constructor].
  destruct j; repeat constructor.
Qed.

(** C5, as the code has it: the create/replace script fails with a
    [ValueError] before any I/O when one of its three settings is absent,
    and so does the upsert script when the table or the primary-key setting
    is absent.  The upsert script checks the URL and the key only when it
    creates the client: with one of them absent no run calls the database
    service, and a run that has read a non-empty array of rows and a column
    map fails there with a [ValueError] (exit status 1), after reading the
    row file. *)
Theorem config_checked_before_database `{PyUnicode} :
  (forall fuel cfg file resp,
     unset (Create.PROJECT_REF cfg) || unset (Create.MANAGEMENT_KEY cfg)
       || unset (Create.TABLE_NAME cfg) = true ->
     exists msg,
       run (Create.main fuel cfg file resp) = ([], Uncaught (ValueError msg)) /\
       exit_status (Uncaught (ValueError msg)) = Some 1%Z) /\
  (forall cfg file answer,
     unset (Upsert.TABLE_NAME cfg) || unset (Upsert.PK_COLUMN cfg) = true ->
     exists msg,
       run (Upsert.main cfg file answer) = ([], Uncaught (ValueError msg)) /\
       exit_status (Uncaught (ValueError msg)) = Some 1%Z) /\
  (forall cfg file answer,
     unset (Upsert.SUPABASE_URL cfg) || unset (Upsert.SUPABASE_KEY cfg) = true ->
     no_database_call (run (Upsert.main cfg file answer)).1 /\
     forall r rows m,
       unset (Upsert.TABLE_NAME cfg) || unset (Upsert.PK_COLUMN cfg) = false ->
       file = FileJson (JArray (r :: rows)) ->
       Upsert.COLUMN_MAP cfg = Some m ->
       run (Upsert.main cfg file answer)
       = ([EvStat; EvRead; EvPrint "Mapped row(s) using COLUMN_MAP."],
          Uncaught (ValueError "SUPABASE_URL and SUPABASE_KEY must be set in .env"))).
Proof.
  split; [| split].
  - intros fuel cfg file resp Hun. unfold Create.main.
    destruct (unset (Create.PROJECT_REF cfg)); [by eexists |].
    destruct (unset (Create.MANAGEMENT_KEY cfg)); [by eexists |].
    destruct (unset (Create.TABLE_NAME cfg)); [by eexists | done].
  - intros cfg file answer Hun. unfold Upsert.main. rewrite Hun. by eexists.
  - intros cfg file answer Hcl.
    split; [by apply upsert_main_no_database_call_without_client |].
    intros r rows m Hset -> Hmap.
    unfold Upsert.main, Upsert.get_client. by rewrite Hset, Hmap, Hcl.
Qed.

Lemma config_checked_before_database_witness :
  no_database_call
    (run (Upsert.main upsert_config_no_url (FileJson (JArray [a_b_row])) (Some 1%nat))).1 /\
  run (Upsert.main upsert_config_no_url (FileJson (JArray [a_b_row])) (Some 1%nat))
  = ([EvStat; EvRead; EvPrint "Mapped row(s) using COLUMN_MAP."],
     Uncaught (ValueError "SUPABASE_URL and SUPABASE_KEY must be set in .env")).
Proof.
  destruct (proj2 (proj2 (@config_checked_before_database ascii_tables))
              upsert_config_no_url (FileJson (JArray [a_b_row])) (Some 1%nat)
              eq_refl) as [Hno Hrun].
  split; [exact Hno |].
  exact (Hrun a_b_row [] [] eq_refl eq_refl eq_refl).
Defined.

(** C5 as stated fails for the upsert script: with the URL setting absent
    and an empty array in the row file, the run reads the file and ends with
    exit status zero. *)
Lemma upsert_main_reads_file_without_url :
  unset (Upsert.SUPABASE_URL upsert_config_no_url) = true /\
  run (Upsert.main upsert_config_no_url (FileJson (JArray [])) None)
  = ([EvStat; EvRead; EvPrint "sheet_data.json is empty - nothing to upsert."],
     Exit 0) /\
  In EvRead (run (Upsert.main upsert_config_no_url (FileJson (JArray [])) None)).1 /\
  exit_status (run (Upsert.main upsert_config_no_url (FileJson (JArray [])) None)).2
  = Some 0%Z.
Proof. repeat split. simpl. tauto. Qed.


(** A run of the create/replace driver, from the row file to the query. *)
Example create_main_inserts `{PyUnicode} :
  run (Create.main 1 create_config_ok (FileJson (JArray [john_doe_row; a_b_row]))
         response_ok)
  = ([ EvStat; EvRead; EvPrint "Filtered";
       EvPrint "===="; EvPrint "Table :"; EvPrint "Cols : | Rows :";
       EvPrint "----"; EvPrint "Original Header / Sanitized Name";
       EvPrint "---- ----";
       EvReport (pystr "given_name") (pystr "given_name") false;
       EvReport (pystr "family_name") (pystr "family_name") false;
       EvReport (pystr "email_address") (pystr "email_address") false;
       EvReport (pystr "phone_number") (pystr "phone_number") false;
       EvPrint "====";
       EvPrint "Sending to Supabase Management API ...";
       EvQuery (build_full_sql (pystr "people")
                  [pystr "given_name"; pystr "family_name";
                   pystr "email_address"; pystr "phone_number"]
                  [[PyStr (pystr "A"); PyStr (pystr "B");
                    PyStr (pystr "a@b.com"); PyNone]]);
       EvPrint "[OK] row(s) inserted" ],
     Exit 0).
Proof. vm_compute. reflexivity. Qed.

(** The driver can receive the headers on which [build_column_map] does not
    return: the run then never ends, and never reaches the database. *)
Lemma create_main_hangs_on_long_headers `{PyUnicode} (fuel : nat) (resp : response) :
  run (Create.main fuel create_config_ok (FileJson (JArray [long_headers_row])) resp)
  = ([EvStat; EvRead; EvPrint "Filtered"], Hang).
Proof.
  unfold Create.main. cbn [unset create_config_ok Create.PROJECT_REF
    Create.MANAGEMENT_KEY Create.TABLE_NAME pystr fmap list_fmap
    list_ascii_of_string].
  cbn [Create.load_rows mbind io_bind emit mret io_ret app].
  rewrite (bool_decide_eq_false_2 ([long_headers_row] = [])) by discriminate.
  assert (Hf : filter_rows [long_headers_row] = [long_headers_row])
    by (vm_compute; reflexivity).
  rewrite Hf.
  rewrite (bool_decide_eq_false_2 ([long_headers_row] = [])) by discriminate.
  change (dict_keys (default [] (head [long_headers_row])))
    with (long_header :: LONG_HEADER :: [pystr "email_address"]).
  rewrite long_headers_never_return. reflexivity.
Qed.

(** * Further properties *)

(** ** Decimal text *)

Lemma pystr_inj s1 s2 : pystr s1 = pystr s2 -> s1 = s2.
Proof.
  unfold pystr. intros Heq.
  rewrite <- (string_of_list_ascii_of_string s1),
          <- (string_of_list_ascii_of_string s2).
  f_equal. revert Heq.
  generalize (list_ascii_of_string s1) (list_ascii_of_string s2).
  intros l1. induction l1 as [| a l1 IH]; intros [| b l2]; simpl; try done.
  intros [= Hab Hrest]. f_equal; [| by apply IH].
  by rewrite <- (ascii_N_embedding a), <- (ascii_N_embedding b), Hab.
Qed.

Lemma to_int_not_nil z :
  Z.to_int z <> Decimal.Pos Decimal.Nil /\ Z.to_int z <> Decimal.Neg Decimal.Nil.
Proof.
  destruct z as [| p | p]; simpl; split; try done;
    intros [= Hp]; by apply (DecimalPos.Unsigned.to_uint_nonnil p).
Qed.

Lemma str_of_int_inj n m : str_of_int n = str_of_int m -> n = m.
Proof.
  unfold str_of_int. intros Heq%pystr_inj.
  apply DecimalZ.to_int_inj.
  destruct (to_int_not_nil n) as [Hn1 Hn2], (to_int_not_nil m) as [Hm1 Hm2].
  pose proof (NilZero.isi _ Hn1 Hn2) as Hn.
  pose proof (NilZero.isi _ Hm1 Hm2) as Hm.
  rewrite Heq in Hn. congruence.
Qed.

Lemma all_ident_string_of_uint d :
  all_ident (pystr (NilEmpty.string_of_uint d)).
Proof. induction d; simpl; [constructor | by constructor ..]. Qed.

Lemma all_ident_str_of_int n : (0 <= n)%Z -> all_ident (str_of_int n).
Proof.
  intros Hn. unfold str_of_int.
  destruct n as [| p | p]; [repeat constructor | | lia]. simpl.
  unfold NilZero.string_of_uint.
  destruct (Pos.to_uint p) eqn:E;
    [by apply DecimalPos.Unsigned.to_uint_nonnil in E
    | rewrite <- E; apply all_ident_string_of_uint ..].
Qed.

(** ** More on the column mapping *)

Section ColumnMapMore.
Context {U : PyUnicode}.

Lemma candidate_name_valid base n :
  all_ident base -> (0 <= n)%Z ->
  (length (candidate_name base n) <= NAMEDATALEN_1)%nat /\
  all_ident (candidate_name base n).
Proof.
  intros Hbase Hn. unfold candidate_name. split.
  - rewrite length_take. lia.
  - apply Forall_take, Forall_app. split; [done |].
    apply Forall_app. split; [repeat constructor | by apply all_ident_str_of_int].
Qed.

Lemma column_step_extends fuel seen result h seen' result' :
  column_step fuel (seen, result) h = Returns (seen', result') ->
  exists name, result' = result ++ [(h, name)].
Proof.
  unfold column_step. case_bool_decide; [intros [= <- <-]; by eexists |].
  destruct (next_candidate _ _) as [[seen1 cand1] | |];
    cbn [mbind outcome_bind]; [| done | done].
  destruct (while_candidate_in_seen _ _ _ _) as [[seen2 cand2] | |];
    cbn [mbind outcome_bind]; [| done | done].
  intros [= <- <-]. by eexists.
Qed.

Lemma for_headers_extends fuel hs :
  forall seen result seen' result',
    for_headers fuel hs (seen, result) = Returns (seen', result') ->
    exists new, result' = result ++ new /\ length new = length hs.
Proof.
  induction hs as [| h hs IH]; intros seen result seen' result'.
  - intros [= <- <-]. exists []. by rewrite app_nil_r.
  - change (for_headers fuel (h :: hs) (seen, result))
      with (column_step fuel (seen, result) h ≫= for_headers fuel hs).
    destruct (column_step fuel (seen, result) h) as [[seen1 result1] | |] eqn:Hstep;
      cbn [mbind outcome_bind]; [| done | done].
    apply column_step_extends in Hstep as [name ->].
    intros (new & -> & Hlen)%IH. exists ((h, name) :: new).
    split; [by rewrite <- app_assoc | simpl; by rewrite Hlen].
Qed.

Lemma for_headers_app fuel hs hs' :
  forall st, for_headers fuel (hs ++ hs') st
             = for_headers fuel hs st ≫= for_headers fuel hs'.
Proof.
  induction hs as [| h hs IH]; intros st; [done |].
  change (for_headers fuel ((h :: hs) ++ hs') st)
    with (column_step fuel st h ≫= for_headers fuel (hs ++ hs')).
  change (for_headers fuel (h :: hs) st)
    with (column_step fuel st h ≫= for_headers fuel hs).
  destruct (column_step fuel st h) as [st1 | |]; cbn [mbind outcome_bind];
    [apply IH | done | done].
Qed.

Lemma for_headers_plain fuel hs :
  forall (seen : gmap (list N) Z) result,
    (forall x, is_Some (seen !! x) <-> x ∈ taken result) ->
    NoDup (sanitize_column_name <$> hs) ->
    (forall h, h ∈ hs -> sanitize_column_name h ∉ taken result) ->
    exists seen', for_headers fuel hs (seen, result)
                  = Returns (seen', result ++ plain_map hs).
Proof.
  induction hs as [| h hs IH]; intros seen result Hdom Hnd Hfree.
  - exists seen. simpl. by rewrite app_nil_r.
  - change (for_headers fuel (h :: hs) (seen, result))
      with (column_step fuel (seen, result) h ≫= for_headers fuel hs).
    rewrite fmap_cons in Hnd. apply NoDup_cons in Hnd as [Hh Hnd].
    assert (Hnone : seen !! sanitize_column_name h = None).
    { destruct (seen !! sanitize_column_name h) eqn:E; [| done].
      exfalso. apply (Hfree h); [by left |]. apply Hdom. eauto. }
    unfold column_step. rewrite bool_decide_eq_true_2 by done.
    cbn [mbind outcome_bind].
    destruct (IH (<[sanitize_column_name h := 1%Z]> seen)
                 (result ++ [(h, sanitize_column_name h)])) as [seen' Hrun].
    + intros x. rewrite taken_snoc, <- Hdom.
      destruct (decide (sanitize_column_name h = x)) as [<- | Hne].
      * rewrite lookup_insert_eq. split; eauto.
      * rewrite lookup_insert_ne by done.
        split; [eauto | intros [? | ?]; [done | congruence]].
    + done.
    + intros h' Hin [Hold | Heq]%taken_snoc.
      * apply (Hfree h'); [by right | done].
      * apply Hh. rewrite <- Heq. by apply list_elem_of_fmap_2.
    + exists seen'. rewrite Hrun. unfold plain_map.
      by rewrite fmap_cons, <- app_assoc.
Qed.
End ColumnMapMore.

(** X1: every identifier that [build_column_map] returns, renamed or not,
    has at most 63 characters and consists of lowercase letters, digits and
    underscores. *)
Theorem build_column_map_names_valid `{PyUnicode} fuel headers result :
  build_column_map fuel headers = Returns result ->
  Forall (fun name => (length name <= 63)%nat /\ all_ident name) result.*2.
Proof.
  intros (_ & Hok & _)%build_column_map_spec.
  apply Forall_fmap, Forall_lookup. intros i [h name] Hi. simpl.
  destruct (Hok i h name Hi) as [[_ ->] | (_ & n & Hn & -> & _)].
  - split; [apply sanitize_length | apply sanitize_all_ident].
  - apply candidate_name_valid; [apply sanitize_all_ident | lia].
Qed.

Lemma build_column_map_names_valid_witness :
  Forall (fun name => (length name <= 63)%nat /\ all_ident name)
    [pystr "email"; pystr "email_2"].
Proof.
  exact (@build_column_map_names_valid ascii_tables 1%nat
    [pystr "Email"; pystr "email"]
    [(pystr "Email", pystr "email"); (pystr "email", pystr "email_2")]
    ltac:(vm_compute; reflexivity)).
Defined.

(** X2: when the sanitized names of the headers are pairwise distinct and
    none is [id], [build_column_map] returns at once (no fuel is needed) and
    renames nothing: every header is paired with its sanitized name. *)
Theorem build_column_map_no_collision `{PyUnicode} fuel headers :
  NoDup (pystr "id" :: (sanitize_column_name <$> headers)) ->
  build_column_map fuel headers = Returns (plain_map headers).
Proof.
  intros [Hid Hnd]%NoDup_cons. unfold build_column_map.
  destruct (for_headers_plain fuel headers {[pystr "id" := 1%Z]} [])
    as [seen' ->]; [| done | | done].
  - apply column_inv_init.
  - intros h Hin Hx. unfold taken in Hx. simpl in Hx.
    apply list_elem_of_singleton in Hx.
    apply Hid. rewrite <- Hx. by apply list_elem_of_fmap_2.
Qed.

Lemma build_column_map_no_collision_witness :
  @build_column_map ascii_tables 0 [pystr "Full Name"; pystr "2024 Sales"]
  = Returns [(pystr "Full Name", pystr "full_name");
             (pystr "2024 Sales", pystr "col_2024_sales")].
Proof.
  apply (@build_column_map_no_collision ascii_tables 0%nat
           [pystr "Full Name"; pystr "2024 Sales"]).
  apply (bool_decide_unpack _). vm_compute. exact I.
Defined.

(** X3: the mapping of the first headers does not depend on the headers
    that follow: when [build_column_map] returns for a header list, it
    returns for each of its prefixes, with the same pairs. *)
Theorem build_column_map_prefix `{PyUnicode} fuel hs hs' result :
  build_column_map fuel (hs ++ hs') = Returns result ->
  build_column_map fuel hs = Returns (take (length hs) result).
Proof.
  unfold build_column_map. rewrite for_headers_app.
  destruct (for_headers fuel hs _) as [[seen1 result1] | |] eqn:H1;
    cbn [mbind outcome_bind]; [| done | done].
  destruct (for_headers fuel hs' _) as [[seen2 result2] | |] eqn:H2;
    cbn [mbind outcome_bind]; [| done | done].
  intros [= <-].
  apply for_headers_extends in H1 as (new1 & -> & Hlen1).
  apply for_headers_extends in H2 as (new2 & -> & _).
  simpl. by rewrite take_app_length' by done.
Qed.

Lemma build_column_map_prefix_witness :
  @build_column_map ascii_tables 1 [pystr "Email"; pystr "email"]
  = Returns [(pystr "Email", pystr "email"); (pystr "email", pystr "email_2")].
Proof.
  exact (@build_column_map_prefix ascii_tables 1%nat
    [pystr "Email"; pystr "email"] [pystr "EMAIL"]
    [(pystr "Email", pystr "email"); (pystr "email", pystr "email_2");
     (pystr "EMAIL", pystr "email_3")]
    ltac:(vm_compute; reflexivity)).
Defined.

(** ** When the column mapping returns *)

Lemma candidate_name_fits base n :
  fits base n -> candidate_name base n = base ++ pystr "_" ++ str_of_int n.
Proof. intros Hfit. unfold candidate_name. by apply take_ge. Qed.

Lemma candidate_name_inj base n m :
  fits base n -> fits base m ->
  candidate_name base n = candidate_name base m -> n = m.
Proof.
  intros Hn Hm. rewrite !candidate_name_fits by done.
  intros Heq. do 2 apply app_inv_head in Heq. by apply str_of_int_inj.
Qed.

Lemma candidate_name_ne_base base n : fits base n -> candidate_name base n <> base.
Proof.
  intros Hfit. rewrite candidate_name_fits by done. intros Heq.
  apply (f_equal length) in Heq. rewrite !length_app in Heq. simpl in Heq. lia.
Qed.

Section ColumnMapReturns.
Context {U : PyUnicode}.

(** The loop ends as soon as the counter reaches a free candidate. *)
Lemma while_returns_if_free base fuel :
  forall (seen : gmap (list N) Z) k n,
    seen !! base = Some k -> (k <= n)%Z ->
    seen !! candidate_name base n = None ->
    (n - k < Z.of_nat fuel)%Z ->
    exists r, while_candidate_in_seen fuel seen base (candidate_name base k)
              = Returns r.
Proof.
  induction fuel as [| fuel IH]; intros seen k n Hk Hle Hfree Hfuel; [lia |].
  simpl. case_bool_decide as Hin; [| by eexists].
  unfold next_candidate. rewrite Hk. cbn [mbind outcome_bind].
  assert (k <> n) by (intros ->; rewrite Hfree in Hin; by destruct Hin).
  apply (IH _ (k + 1)%Z n); [by rewrite lookup_insert_eq | lia | | lia].
  rewrite lookup_insert_ne; [done |]. intros Heq. by rewrite <- Heq, Hk in Hfree.
Qed.

(** Among the candidates 2 .. [length result + 2] one is free: they are
    that many distinct names, all different from the base, and with the base
    they would be more names than are taken. *)
Lemma free_candidate_exists (seen : gmap (list N) Z)
    (result : list (str * str)) (base : str) :
  column_inv seen result -> is_Some (seen !! base) ->
  (forall n, (2 <= n <= Z.of_nat (length result) + 2)%Z -> fits base n) ->
  exists n, (2 <= n <= Z.of_nat (length result) + 2)%Z /\
            seen !! candidate_name base n = None.
Proof.
  intros [Hdom _ Hnd] Hbase Hfits.
  set (ns := seqZ 2 (Z.of_nat (length result) + 1)).
  assert (Hns : forall n, n ∈ ns <-> (2 <= n <= Z.of_nat (length result) + 2)%Z).
  { intros n. unfold ns. rewrite elem_of_seqZ. lia. }
  destruct (decide (Forall (fun n => candidate_name base n ∈ taken result) ns))
    as [Hall | Hnot].
  - exfalso.
    assert (Hdup : NoDup (base :: (candidate_name base <$> ns))).
    { apply NoDup_cons. split.
      - intros (n & Heq & Hn)%list_elem_of_fmap.
        eapply candidate_name_ne_base; [apply Hfits, Hns, Hn | done].
      - apply NoDup_fmap_2_strong; [| apply NoDup_seqZ].
        intros n m Hn Hm. apply candidate_name_inj; by apply Hfits, Hns. }
    assert (Hsub : base :: (candidate_name base <$> ns) ⊆+ taken result).
    { apply NoDup_submseteq; [done |].
      intros x [-> | (n & -> & Hn)%list_elem_of_fmap]%elem_of_cons.
      - by apply Hdom.
      - by eapply Forall_forall in Hall. }
    apply submseteq_length in Hsub. unfold taken, ns in Hsub. simpl in Hsub.
    rewrite !length_fmap, length_seqZ in Hsub. lia.
  - apply not_Forall_Exists in Hnot; [| apply _].
    apply Exists_exists in Hnot as (n & Hn & Hfree). exists n.
    split; [by apply Hns |].
    destruct (seen !! candidate_name base n) eqn:E; [| done].
    exfalso. apply Hfree, Hdom. eauto.
Qed.

Lemma column_step_returns (fuel : nat) (seen : gmap (list N) Z)
    (result : list (str * str)) (h : str) :
  column_inv seen result ->
  (forall n, (2 <= n <= Z.of_nat (length result) + 2)%Z ->
             fits (sanitize_column_name h) n) ->
  (length result < fuel)%nat ->
  exists st, column_step fuel (seen, result) h = Returns st.
Proof.
  intros Hinv Hfits Hfuel. unfold column_step.
  set (base := sanitize_column_name h) in *.
  case_bool_decide as Hfresh; [by eexists |].
  destruct (seen !! base) as [k |] eqn:Hk; [| done].
  destruct (free_candidate_exists seen result base Hinv) as (n & Hn & Hfree);
    [eauto | done |].
  destruct (inv_count _ _ Hinv _ _ Hk) as [Hk1 Hbelow].
  assert (k < n)%Z.
  { destruct (decide (k < n)%Z); [done |]. exfalso.
    assert (Hin : candidate_name base n ∈ taken result) by (apply Hbelow; lia).
    apply (inv_dom _ _ Hinv) in Hin. rewrite Hfree in Hin. by destruct Hin. }
  unfold next_candidate. rewrite Hk. cbn [mbind outcome_bind].
  destruct (while_returns_if_free base fuel (<[base:=(k + 1)%Z]> seen) (k + 1) n)
    as [[seen2 cand] ->]; [by rewrite lookup_insert_eq | lia | | lia |].
  - rewrite lookup_insert_ne; [done |]. intros Heq. by rewrite <- Heq, Hk in Hfree.
  - cbn [mbind outcome_bind]. by eexists.
Qed.

Lemma for_headers_returns fuel hs :
  forall (seen : gmap (list N) Z) result,
    column_inv seen result -> assignments_ok result ->
    (forall h n, h ∈ hs ->
       (2 <= n <= Z.of_nat (length result + length hs) + 1)%Z ->
       fits (sanitize_column_name h) n) ->
    (length result + length hs <= fuel)%nat ->
    exists st, for_headers fuel hs (seen, result) = Returns st.
Proof.
  induction hs as [| h hs IH]; intros seen result Hinv Hok Hfits Hfuel;
    [by eexists |].
  change (for_headers fuel (h :: hs) (seen, result))
    with (column_step fuel (seen, result) h ≫= for_headers fuel hs).
  simpl in Hfits, Hfuel.
  destruct (column_step_returns fuel seen result h Hinv) as [[seen1 result1] Hstep];
    [intros n Hn; apply Hfits; [by left | lia] | lia |].
  rewrite Hstep. cbn [mbind outcome_bind].
  apply column_step_spec in Hstep as (Hinv1 & Hok1 & name & ->); [| done | done].
  apply IH; [done | done | | rewrite length_app; simpl; lia].
  intros h' n Hin Hn. apply Hfits; [by right |].
  rewrite length_app in Hn. simpl in Hn. lia.
Qed.

Lemma str_of_int_two_digits n : (0 <= n < 100)%Z -> (length (str_of_int n) <= 2)%nat.
Proof.
  intros Hn.
  assert (Hall : Forall (fun n => (length (str_of_int n) <= 2)%nat) (seqZ 0 100)).
  { apply (bool_decide_unpack _). vm_compute. exact I. }
  eapply Forall_forall in Hall; [exact Hall |]. apply elem_of_seqZ. lia.
Qed.
End ColumnMapReturns.

Lemma build_column_map_returns_if_fits `{PyUnicode} (headers : list str) :
  (forall h n, h ∈ headers ->
     (2 <= n <= Z.of_nat (length headers) + 1)%Z ->
     fits (sanitize_column_name h) n) ->
  exists result, build_column_map (length headers) headers = Returns result.
Proof.
  intros Hfits. unfold build_column_map.
  destruct (for_headers_returns (length headers) headers {[pystr "id" := 1%Z]} [])
    as [[seen result] ->]; [apply column_inv_init | by intros i h name | | done |].
  - intros h n Hin Hn. by apply Hfits.
  - cbn [mbind outcome_bind]. by eexists.
Qed.

(** X4: [build_column_map] returns whenever no candidate it may have to
    try is cut by the 63-character limit: if for every header the text
    [base_n] fits for every [n] from 2 to the number of headers plus one,
    then the call returns, and as many loop turns as there are headers are
    enough. *)
Theorem build_column_map_returns `{PyUnicode} (headers : list str) :
  (forall h n, h ∈ headers ->
     (2 <= n <= Z.of_nat (length headers) + 1)%Z ->
     (length (sanitize_column_name h ++ pystr "_" ++ str_of_int n) <= 63)%nat) ->
  exists result, build_column_map (length headers) headers = Returns result.
Proof. apply build_column_map_returns_if_fits. Qed.

Lemma build_column_map_returns_witness :
  exists result,
    @build_column_map ascii_tables 2 [pystr "Email"; pystr "email"] = Returns result.
Proof.
  apply (@build_column_map_returns ascii_tables [pystr "Email"; pystr "email"]).
  intros h n Hin Hn.
  assert (Hh : @sanitize_column_name ascii_tables h = pystr "email").
  { apply elem_of_cons in Hin as [-> | Hin]; [reflexivity |].
    apply list_elem_of_singleton in Hin as ->. reflexivity. }
  rewrite Hh.
  assert (n = 2 \/ n = 3)%Z as [-> | ->] by (simpl in Hn; lia);
    vm_compute; lia.
Defined.

(** X5: a sheet with at most 98 columns whose sanitized names have at most
    60 characters always gets its mapping: [build_column_map] returns. *)
Theorem build_column_map_returns_short `{PyUnicode} (headers : list str) :
  (length headers <= 98)%nat ->
  Forall (fun h => (length (sanitize_column_name h) <= 60)%nat) headers ->
  exists result, build_column_map (length headers) headers = Returns result.
Proof.
  intros Hcols Hshort. apply build_column_map_returns_if_fits.
  intros h n Hin Hn. eapply Forall_forall in Hshort; [| exact Hin].
  unfold fits, NAMEDATALEN_1. rewrite !length_app.
  change (length (pystr "_")) with 1%nat.
  pose proof (str_of_int_two_digits n). lia.
Qed.

Lemma build_column_map_returns_short_witness :
  exists result,
    @build_column_map ascii_tables 3 [pystr "Id"; pystr "id"; pystr "ID"]
    = Returns result.
Proof.
  apply (@build_column_map_returns_short ascii_tables
           [pystr "Id"; pystr "id"; pystr "ID"]).
  - simpl. lia.
  - apply (bool_decide_unpack _). vm_compute. exact I.
Defined.

(** ** Sanitizing a sanitized name *)

Lemma sub_underscore_runs_head c rest :
  (c =? underscore) = false ->
  sub_underscore_runs (c :: rest) = c :: sub_underscore_runs rest.
Proof. intros Hc. simpl. by rewrite Hc. Qed.

Lemma sub_underscore_runs_no_adjacent s :
  adjacent_underscores (sub_underscore_runs s) = false.
Proof.
  induction s as [| c rest IH]; [done |].
  destruct (c =? underscore) eqn:Hc.
  - destruct rest as [| d rest']; [simpl; by rewrite Hc |].
    destruct (d =? underscore) eqn:Hd.
    + simpl. rewrite Hc, Hd. simpl in IH. by rewrite Hd in IH.
    + change (sub_underscore_runs (c :: d :: rest'))
        with (if c =? underscore then
                if d =? underscore then sub_underscore_runs (d :: rest')
                else c :: sub_underscore_runs (d :: rest')
              else c :: sub_underscore_runs (d :: rest')).
      rewrite Hc, Hd. rewrite sub_underscore_runs_head in * by done.
      cbn [adjacent_underscores] in *. rewrite Hd in IH |- *.
      rewrite andb_false_r. exact IH.
  - rewrite sub_underscore_runs_head by done.
    destruct (sub_underscore_runs rest) as [| d rest'] eqn:E; [done |].
    cbn [adjacent_underscores] in *. by rewrite Hc.
Qed.

Lemma sub_underscore_runs_fixed s :
  adjacent_underscores s = false -> sub_underscore_runs s = s.
Proof.
  induction s as [| c rest IH]; [done |]. intros Hadj.
  destruct rest as [| d rest']; [simpl; by destruct (c =? underscore) |].
  cbn [adjacent_underscores] in Hadj.
  apply orb_false_elim in Hadj as [Hcd Hrest].
  change (sub_underscore_runs (c :: d :: rest'))
    with (if c =? underscore then
            if d =? underscore then sub_underscore_runs (d :: rest')
            else c :: sub_underscore_runs (d :: rest')
          else c :: sub_underscore_runs (d :: rest')).
  rewrite (IH Hrest).
  destruct (c =? underscore), (d =? underscore); done.
Qed.

Lemma adjacent_underscores_step a b s :
  adjacent_underscores (a :: b :: s)
  = ((a =? underscore) && (b =? underscore)) || adjacent_underscores (b :: s).
Proof. reflexivity. Qed.

Lemma adjacent_underscores_cons c s :
  adjacent_underscores (c :: s) = false -> adjacent_underscores s = false.
Proof.
  destruct s as [| d s]; [done |]. cbn [adjacent_underscores].
  by intros [_ ?]%orb_false_elim.
Qed.

Lemma lstrip_by_no_adjacent p s :
  adjacent_underscores s = false -> adjacent_underscores (lstrip_by p s) = false.
Proof.
  induction s as [| c s IH]; [done |]. intros Hadj. simpl.
  destruct (p c); [| done]. by eapply IH, adjacent_underscores_cons.
Qed.

Lemma take_no_adjacent n s :
  adjacent_underscores s = false -> adjacent_underscores (take n s) = false.
Proof.
  revert s. induction n as [| n IH]; intros [| c s] Hadj; try done.
  destruct s as [| d s]; [by destruct n |].
  cbn [adjacent_underscores] in Hadj.
  apply orb_false_elim in Hadj as [Hcd Hrest].
  specialize (IH (d :: s) Hrest).
  destruct n as [| n]; [done |].
  change (take (S (S n)) (c :: d :: s)) with (c :: d :: take n s).
  change (take (S n) (d :: s)) with (d :: take n s) in IH.
  cbn [adjacent_underscores]. by rewrite Hcd.
Qed.

Lemma lstrip_by_id (p : N -> bool) s :
  Forall (fun c => p c = false) s -> lstrip_by p s = s.
Proof. destruct 1 as [| c s Hc _]; simpl; [done | by rewrite Hc]. Qed.

Lemma ident_char_cases c :
  ident_char c = true ->
  (97 <= c <= 122) \/ (48 <= c <= 57) \/ c = underscore.
Proof.
  unfold ident_char, ascii_islower, ascii_isdigit.
  intros [[H | H]%orb_prop | H%N.eqb_eq]%orb_prop; [| | by auto];
    apply andb_prop in H as [H1%N.leb_le H2%N.leb_le]; auto.
Qed.

Section SanitizeTwice.
Context {U : PyUnicode}.

Lemma ident_not_space c : ident_char c = true -> isspace c = false.
Proof.
  intros Hc. unfold isspace. rewrite (ident_char_ascii c Hc).
  unfold ascii_isspace, underscore in *.
  apply ident_char_cases in Hc.
  apply orb_false_intro; apply andb_false_iff;
    destruct Hc as [? | [? | ->]]; unfold underscore;
    (left; apply N.leb_gt; lia) || (right; apply N.leb_gt; lia).
Qed.

Lemma strip_ident s : all_ident s -> strip s = s.
Proof.
  intros Hs. unfold strip, rstrip_by.
  assert (Hns : Forall (fun c => isspace c = false) s).
  { eapply Forall_impl; [exact Hs |]. apply ident_not_space. }
  rewrite (lstrip_by_id isspace s Hns).
  rewrite lstrip_by_id; [apply reverse_involutive |].
  by apply Forall_reverse.
Qed.

Lemma lower_ident s : all_ident s -> lower s = s.
Proof.
  intros Hs. unfold lower.
  assert (Hascii : forallb is_ascii s = true).
  { apply forallb_forall. intros c Hc%list_elem_of_In.
    eapply Forall_forall in Hs; [| exact Hc]. by apply ident_char_ascii. }
  rewrite Hascii. induction Hs as [| c s Hc Hs IH]; [done |].
  rewrite fmap_cons. f_equal.
  - unfold ascii_lower. apply ident_char_cases in Hc.
    rewrite (proj2 (andb_false_iff _ _)); [done |].
    destruct Hc as [? | [? | ->]]; unfold underscore;
      (left; apply N.leb_gt; lia) || (right; apply N.leb_gt; lia).
  - apply IH. simpl in Hascii. by apply andb_prop in Hascii as [_ ?].
Qed.

Lemma sub_non_ident_ident s : all_ident s -> sub_non_ident s = s.
Proof.
  unfold sub_non_ident. induction 1 as [| c s Hc Hs IH]; [done |].
  rewrite fmap_cons, Hc. by f_equal.
Qed.

Lemma sanitize_no_adjacent raw :
  adjacent_underscores (sanitize_column_name raw) = false.
Proof.
  unfold sanitize_column_name.
  case_bool_decide; [reflexivity |].
  case_bool_decide; [reflexivity |].
  set (name := lstrip_underscore _).
  assert (Hadj : adjacent_underscores name = false)
    by apply lstrip_by_no_adjacent, sub_underscore_runs_no_adjacent.
  apply take_no_adjacent.
  destruct name as [| c rest] eqn:E; [done |].
  destruct (isdigit c); [| done].
  apply lstrip_by_head in E.
  change (pystr "col_" ++ c :: rest) with (99 :: 111 :: 108 :: 95 :: c :: rest).
  rewrite !adjacent_underscores_step, Hadj, (N.eqb_sym c), E. reflexivity.
Qed.

(** A sanitized name that starts with a letter is left as it is. *)
Lemma sanitize_fixed (r : str) c rest :
  r = c :: rest -> ascii_islower c = true -> all_ident r ->
  (length r <= NAMEDATALEN_1)%nat -> adjacent_underscores r = false ->
  sanitize_column_name r = r.
Proof.
  intros Hr Hc Hident Hlen Hadj. unfold sanitize_column_name.
  rewrite (strip_ident r Hident), (lower_ident r Hident),
    (sub_non_ident_ident r Hident), (sub_underscore_runs_fixed r Hadj).
  assert (Hc' : ident_char c = true) by (unfold ident_char; by rewrite Hc).
  assert (Hnd : ascii_isdigit c = false /\ (underscore =? c) = false).
  { unfold ascii_islower, ascii_isdigit, underscore in *.
    apply andb_prop in Hc as [H1%N.leb_le H2%N.leb_le]. split.
    - apply andb_false_iff. right. apply N.leb_gt. lia.
    - apply N.eqb_neq. lia. }
  destruct Hnd as [Hd Hu].
  assert (Hstrip : lstrip_underscore r = r).
  { unfold lstrip_underscore. subst r. cbn [lstrip_by]. by rewrite Hu. }
  rewrite Hstrip. subst r.
  rewrite !bool_decide_eq_false_2 by done.
  rewrite (isdigit_ident c Hc'), Hd. by apply take_ge.
Qed.
End SanitizeTwice.

(** X6: sanitizing is stable on its own results, the placeholder apart: a
    result other than [_unnamed] is sanitized to itself, while [_unnamed]
    loses its underscore and becomes [unnamed]. *)
Theorem sanitize_column_name_twice `{PyUnicode} (raw : str) :
  (sanitize_column_name raw <> pystr "_unnamed" ->
   sanitize_column_name (sanitize_column_name raw) = sanitize_column_name raw) /\
  (sanitize_column_name raw = pystr "_unnamed" ->
   sanitize_column_name (sanitize_column_name raw) = pystr "unnamed").
Proof.
  split.
  - intros Hne.
    destruct (sanitize_shape raw) as [Hp | (c & rest & Hr & Hc)]; [done |].
    eapply sanitize_fixed; [exact Hr | exact Hc | apply sanitize_all_ident
      | apply sanitize_length | apply sanitize_no_adjacent].
  - intros ->. reflexivity.
Qed.

Lemma sanitize_column_name_twice_witness :
  @sanitize_column_name ascii_tables
    (@sanitize_column_name ascii_tables (pystr " 2024  Sales!! "))
  = @sanitize_column_name ascii_tables (pystr " 2024  Sales!! ") /\
  @sanitize_column_name ascii_tables (@sanitize_column_name ascii_tables (pystr "!!!"))
  = pystr "unnamed".
Proof.
  split.
  - apply (proj1 (@sanitize_column_name_twice ascii_tables (pystr " 2024  Sales!! "))).
    vm_compute. discriminate.
  - apply (proj2 (@sanitize_column_name_twice ascii_tables (pystr "!!!"))).
    reflexivity.
Defined.

(** ** Reading the literals back *)

Lemma read_quoted_double_quotes text tail :
  head tail <> Some quote ->
  read_quoted (double_quotes text ++ quote :: tail) = Some (text, tail).
Proof.
  intros Htail. induction text as [| c text IH].
  - simpl. destruct tail as [| d tail']; [done |].
    destruct (d =? quote) eqn:Hd; [| done].
    apply N.eqb_eq in Hd. subst d. by destruct Htail.
  - simpl. destruct (c =? quote) eqn:Hc.
    + apply N.eqb_eq in Hc. subst c.
      change ((quote :: quote :: double_quotes text) ++ quote :: tail)
        with (quote :: quote :: (double_quotes text ++ quote :: tail)).
      cbn [read_quoted]. rewrite N.eqb_refl. by rewrite IH.
    + change ((c :: double_quotes text) ++ quote :: tail)
        with (c :: (double_quotes text ++ quote :: tail)).
      cbn [read_quoted]. by rewrite Hc, IH.
Qed.

Lemma read_sql_value_escape (v : pyval) (tail : str) :
  head tail <> Some quote ->
  read_sql_value (escape_sql_value v ++ tail) = Some (stored v, tail).
Proof.
  intros Htail. rewrite escape_sql_value_literal.
  destruct v as [| s | z | b]; [reflexivity | | |];
    unfold sql_literal, stored;
    change (pystr "'") with [quote];
    rewrite <- !app_assoc;
    change ([quote] ++ ?x) with (quote :: x);
    cbn [read_sql_value app];
    (destruct (decide (quote = 78)) as [? | _]; [done |]);
    change (quote =? quote) with true; cbn iota;
    by rewrite read_quoted_double_quotes.
Qed.

(** X7: a value literal written by [escape_sql_value] reads back, under
    the standard SQL quoting rules, as the value that was written - null for
    [None], the text of the value otherwise - and the reader stops exactly
    at the end of the literal, whatever quotes the text contains (the text
    that follows must not start with a single quote, as the [, ] and [)]
    of a tuple do not). *)
Theorem escape_sql_value_reads_back (v : pyval) (tail : str) :
  head tail <> Some quote ->
  read_sql_value (escape_sql_value v ++ tail) = Some (stored v, tail).
Proof. apply read_sql_value_escape. Qed.

Lemma escape_sql_value_reads_back_witness :
  read_sql_value (escape_sql_value (PyStr (pystr "x'); DROP TABLE t; --")) ++ pystr ", 'b')")
  = Some (Some (pystr "x'); DROP TABLE t; --"), pystr ", 'b')").
Proof.
  apply (escape_sql_value_reads_back
           (PyStr (pystr "x'); DROP TABLE t; --")) (pystr ", 'b')")).
  vm_compute. discriminate.
Defined.

(** ** Runs of the create/replace driver *)

Section CreateRuns.
Context {U : PyUnicode}.

Lemma for_each_report (col_map : list (str * str)) :
  for_each col_map (fun '(orig, san) =>
    emit (EvReport orig san (negb (bool_decide (lower (strip orig) = san)))))
  = Io (report_events col_map) (inl tt).
Proof.
  induction col_map as [| [orig san] col_map IH]; [done |].
  cbn [for_each mbind io_bind emit]. rewrite IH. reflexivity.
Qed.

Lemma filter_rows_nil : filter_rows [] = [].
Proof. reflexivity. Qed.

(** The run on a row file that leaves rows after filtering, up to the
    query and through it. *)
Lemma create_main_query_path fuel cfg rows resp col_map :
  create_config_set cfg ->
  filter_rows rows <> [] ->
  build_column_map fuel (dict_keys (default [] (head (filter_rows rows))))
    = Returns col_map ->
  Create.main fuel cfg (FileJson (JArray rows)) resp
  = match Create.run_query resp (query_of cfg col_map (filter_rows rows)) with
    | Io tr (inl _) =>
        Io (trace_before_query col_map ++ tr ++ [EvPrint "[OK] row(s) inserted"])
           (inl tt)
    | Io tr (inr t) => Io (trace_before_query col_map ++ tr) (inr t)
    end.
Proof.
  intros (H1 & H2 & H3) Hrows Hmap. unfold Create.main. rewrite H1, H2, H3.
  assert (Hne : rows <> []) by (intros ->; by apply Hrows).
  cbn [Create.load_rows mbind io_bind emit mret io_ret app].
  rewrite (bool_decide_eq_false_2 (rows = [])) by done.
  rewrite (bool_decide_eq_false_2 (filter_rows rows = [])) by done.
  rewrite Hmap. cbn [mbind io_bind emit mret io_ret app].
  rewrite for_each_report. unfold query_of, trace_before_query.
  destruct (Create.run_query resp _) as [tr [[] | t]];
    cbn [mbind io_bind emit mret io_ret app]; by rewrite <- ?app_assoc.
Qed.

Lemma run_query_cases resp sql :
  exists tr r, Create.run_query resp sql = Io (EvQuery sql :: tr) r /\
               database_calls tr = [].
Proof.
  unfold Create.run_query. cbn [mbind io_bind emit app].
  case_bool_decide; [| case_bool_decide];
    destruct (body_is_json resp); cbn [mbind io_bind emit mret io_ret raise app];
    by do 2 eexists.
Qed.

Lemma database_calls_app tr tr' :
  database_calls (tr ++ tr') = database_calls tr ++ database_calls tr'.
Proof. unfold database_calls. apply List.filter_app. Qed.

Lemma database_calls_report col_map : database_calls (report_events col_map) = [].
Proof. induction col_map as [| [orig san] col_map IH]; [done | exact IH]. Qed.

Lemma database_calls_before_query col_map :
  database_calls (trace_before_query col_map) = [].
Proof.
  unfold trace_before_query.
  by rewrite !database_calls_app, database_calls_report.
Qed.

Lemma create_main_empty_path fuel cfg rows resp :
  create_config_set cfg -> filter_rows rows = [] ->
  exists tr, run (Create.main fuel cfg (FileJson (JArray rows)) resp) = (tr, Exit 0)
             /\ database_calls tr = [].
Proof.
  intros (H1 & H2 & H3) Hnone. unfold Create.main. rewrite H1, H2, H3.
  destruct rows as [| r rows]; [by eexists |].
  cbn [Create.load_rows mbind io_bind emit mret io_ret app].
  rewrite (bool_decide_eq_false_2 (r :: rows = [])) by discriminate.
  rewrite Hnone. by eexists.
Qed.

(** Every run: either nothing is sent, or the run went down the query
    path and sent exactly its query. *)
Lemma create_main_calls fuel cfg file resp :
  database_calls (run (Create.main fuel cfg file resp)).1 = [] \/
  exists rows col_map,
    file = FileJson (JArray rows) /\ create_config_set cfg /\
    filter_rows rows <> [] /\
    build_column_map fuel (dict_keys (default [] (head (filter_rows rows))))
      = Returns col_map /\
    database_calls (run (Create.main fuel cfg file resp)).1
      = [EvQuery (query_of cfg col_map (filter_rows rows))].
Proof.
  destruct (unset (Create.PROJECT_REF cfg)) eqn:H1;
    [left; unfold Create.main; by rewrite H1 |].
  destruct (unset (Create.MANAGEMENT_KEY cfg)) eqn:H2;
    [left; unfold Create.main; by rewrite H1, H2 |].
  destruct (unset (Create.TABLE_NAME cfg)) eqn:H3;
    [left; unfold Create.main; by rewrite H1, H2, H3 |].
  destruct file as [| | [| | | | | rows]];
    try (left; unfold Create.main; by rewrite H1, H2, H3).
  destruct (decide (filter_rows rows = [])) as [Hnil | Hrows].
  { left. destruct (create_main_empty_path fuel cfg rows resp) as (tr & Hrun & Htr);
      [done | done |]. by rewrite Hrun. }
  destruct (build_column_map fuel
              (dict_keys (default [] (head (filter_rows rows))))) as [col_map | e |]
    eqn:Hmap.
  - right. exists rows, col_map. repeat (split; [done |]).
    rewrite (create_main_query_path fuel cfg rows resp col_map); [| done ..].
    destruct (run_query_cases resp (query_of cfg col_map (filter_rows rows)))
      as (tr & r & -> & Htr).
    destruct r as [[] | t]; cbn [run fst];
      rewrite !database_calls_app, database_calls_before_query;
      cbn [database_calls List.filter app]; fold (database_calls tr);
      by rewrite Htr.
  - by apply build_column_map_no_raise in Hmap.
  - left. unfold Create.main. rewrite H1, H2, H3.
    assert (Hne : rows <> []) by (intros ->; by apply Hrows).
    cbn [Create.load_rows mbind io_bind emit mret io_ret app].
    rewrite (bool_decide_eq_false_2 (rows = [])) by done.
    rewrite (bool_decide_eq_false_2 (filter_rows rows = [])) by done.
    by rewrite Hmap.
Qed.
End CreateRuns.

(** X8: a run of the create/replace driver calls the database service at
    most once.  When it does, all three settings are present, the file held
    rows of which some passed the filter, and the one query is the text
    built for those rows; its columns are pairwise distinct and none is
    [id], there is one column per key of the first row, and every tuple has
    as many values as there are columns. *)
Theorem create_main_query_wellformed `{PyUnicode}
    (fuel : nat) (cfg : Create.config) (file : sheet_file) (resp : response) :
  database_calls (run (Create.main fuel cfg file resp)).1 = [] \/
  exists rows col_map,
    file = FileJson (JArray rows) /\ create_config_set cfg /\
    filter_rows rows <> [] /\
    database_calls (run (Create.main fuel cfg file resp)).1
      = [EvQuery (query_of cfg col_map (filter_rows rows))] /\
    NoDup (pystr "id" :: col_map.*2) /\
    col_map.*1 = dict_keys (default [] (head (filter_rows rows))) /\
    Forall (fun vals => length vals = length col_map.*2)
      (rows_to_values (filter_rows rows)
         (dict_keys (default [] (head (filter_rows rows))))).
Proof.
  destruct (create_main_calls fuel cfg file resp)
    as [Hnone | (rows & col_map & -> & Hcfg & Hrows & Hmap & Hcalls)];
    [by left | right].
  exists rows, col_map. repeat (split; [done |]).
  apply build_column_map_spec in Hmap as (Hnd & _ & Hkeys).
  split; [exact Hnd |]. split; [exact Hkeys |].
  unfold rows_to_values. apply Forall_fmap, Forall_forall. intros r _. simpl.
  by rewrite !length_fmap, <- Hkeys, length_fmap.
Qed.

(** X9: how a run that sends its query ends.  On status 200 or 201 with a
    JSON body it prints the success line and exits with status zero.  On a
    status from 400 to 599 it prints the two error lines and ends with an
    uncaught [HTTPError], the success line not printed.  On any other status
    (a 204 or a 3xx, say) with a JSON body it prints the error lines and then
    the success line all the same, and exits with status zero. *)
Theorem create_main_after_query `{PyUnicode}
    (fuel : nat) (cfg : Create.config) (rows : list row) (resp : response)
    (col_map : list (str * str)) :
  create_config_set cfg ->
  filter_rows rows <> [] ->
  build_column_map fuel (dict_keys (default [] (head (filter_rows rows))))
    = Returns col_map ->
  let sent := trace_before_query col_map
              ++ [EvQuery (query_of cfg col_map (filter_rows rows))] in
  let errors := [EvPrintErr "[ERR] Management API returned"; EvPrintErr "resp.text"] in
  (status_code resp ∈ [200; 201]%Z -> body_is_json resp = true ->
   run (Create.main fuel cfg (FileJson (JArray rows)) resp)
   = (sent ++ [EvPrint "[OK] row(s) inserted"], Exit 0)) /\
  ((400 <= status_code resp < 600)%Z ->
   run (Create.main fuel cfg (FileJson (JArray rows)) resp)
   = (sent ++ errors, Uncaught (HTTPError (status_code resp)))) /\
  ((status_code resp ∉ [200; 201]%Z) -> ~ (400 <= status_code resp < 600)%Z ->
   body_is_json resp = true ->
   run (Create.main fuel cfg (FileJson (JArray rows)) resp)
   = (sent ++ errors ++ [EvPrint "[OK] row(s) inserted"], Exit 0)).
Proof.
  intros Hcfg Hrows Hmap sent errors.
  rewrite (create_main_query_path fuel cfg rows resp col_map) by done.
  unfold Create.run_query, sent, errors. split; [| split].
  - intros Hok Hjson. rewrite bool_decide_eq_true_2 by done. rewrite Hjson.
    cbn [mbind io_bind emit mret io_ret app run]. by rewrite <- !app_assoc.
  - intros Herr.
    rewrite bool_decide_eq_false_2
      by (intros Hin; repeat (apply elem_of_cons in Hin as [Hin | Hin]; [lia |]);
          by apply elem_of_nil in Hin).
    rewrite bool_decide_eq_true_2 by done.
    cbn [mbind io_bind emit mret io_ret raise app run]. by rewrite <- !app_assoc.
  - intros Hnok Hnerr Hjson. rewrite !bool_decide_eq_false_2 by done.
    rewrite Hjson.
    cbn [mbind io_bind emit mret io_ret app run]. by rewrite <- !app_assoc.
Qed.

Lemma create_main_after_query_witness :
  exists tr,
    run (@Create.main ascii_tables 1 create_config_ok
           (FileJson (JArray [a_b_row])) response_no_content)
    = (tr ++ [EvPrintErr "[ERR] Management API returned"; EvPrintErr "resp.text";
              EvPrint "[OK] row(s) inserted"], Exit 0).
Proof.
  eexists.
  apply (proj2 (proj2 (@create_main_after_query ascii_tables 1%nat create_config_ok
           [a_b_row] response_no_content
           [(pystr "given_name", pystr "given_name");
            (pystr "family_name", pystr "family_name");
            (pystr "email_address", pystr "email_address");
            (pystr "phone_number", pystr "phone_number")]
           ltac:(by repeat split) ltac:(vm_compute; discriminate)
           ltac:(vm_compute; reflexivity)))).
  - simpl. intros Hin.
    repeat (apply elem_of_cons in Hin as [Hin | Hin]; [discriminate |]).
    by apply elem_of_nil in Hin.
  - simpl. lia.
  - reflexivity.
Defined.

(** X10: with its settings present, a run of the create/replace driver on
    a row file that is absent, is not JSON, or holds a JSON value that is
    not an array ends with an uncaught exception (exit status 1) before it
    prints anything, and nothing is sent. *)
Theorem create_main_bad_file `{PyUnicode}
    (fuel : nat) (cfg : Create.config) (file : sheet_file) (resp : response) :
  create_config_set cfg ->
  (forall rows, file <> FileJson (JArray rows)) ->
  exists tr e,
    run (Create.main fuel cfg file resp) = (tr, Uncaught e) /\
    exit_status (Uncaught e) = Some 1%Z /\
    (tr = [EvStat] /\ file = FileMissing /\ e = FileNotFoundError \/
     tr = [EvStat; EvRead] /\ file <> FileMissing /\
       (e = JSONDecodeError /\ file = FileNotJson \/
        e = ValueError "Expected a JSON array" /\ file <> FileNotJson)).
Proof.
  intros (H1 & H2 & H3) Hfile. unfold Create.main. rewrite H1, H2, H3.
  destruct file as [| | j].
  - do 2 eexists. split; [reflexivity |]. split; [done |]. by left.
  - do 2 eexists. split; [reflexivity |]. split; [done |]. right.
    split; [done |]. split; [done |]. by left.
  - destruct j as [| b | z | s | ks | rows]; [| | | | | by destruct (Hfile rows)];
      (do 2 eexists; split; [reflexivity |]; split; [done |]; right;
       split; [done |]; split; [done |]; by right).
Qed.

Lemma create_main_bad_file_witness :
  exists tr e,
    run (@Create.main ascii_tables 0 create_config_ok (FileJson (JObject [])) response_ok)
    = (tr, Uncaught e) /\ tr = [EvStat; EvRead].
Proof.
  destruct (@create_main_bad_file ascii_tables 0%nat create_config_ok
              (FileJson (JObject [])) response_ok ltac:(by repeat split)
              ltac:(discriminate)) as (tr & e & Hrun & _ & [(_ & [=] & _) | (Htr & _)]).
  by exists tr, e.
Defined.

(** ** Dictionaries *)

Lemma dict_lookup_set_eq (d : row) k v : dict_lookup (dict_set d k v) k = Some v.
Proof.
  induction d as [| [k' v'] d IH]; simpl.
  - by rewrite bool_decide_eq_true_2.
  - case_bool_decide as E; simpl.
    + by rewrite bool_decide_eq_true_2.
    + by rewrite bool_decide_eq_false_2.
Qed.

Lemma dict_lookup_set_ne (d : row) k v k' :
  k <> k' -> dict_lookup (dict_set d k v) k' = dict_lookup d k'.
Proof.
  intros Hne. induction d as [| [k0 v0] d IH]; simpl.
  - by rewrite bool_decide_eq_false_2.
  - case_bool_decide as E; simpl.
    + subst k0. by rewrite !bool_decide_eq_false_2.
    + by rewrite IH.
Qed.

Lemma dict_lookup_None_keys (d : row) k : dict_lookup d k = None <-> k ∉ dict_keys d.
Proof.
  unfold dict_keys. induction d as [| [k0 v0] d IH]; simpl.
  - split; [intros _; apply not_elem_of_nil | done].
  - rewrite not_elem_of_cons. case_bool_decide as E.
    + split; [done | intros [? _]; congruence].
    + rewrite IH. split; [intros ?; split; [congruence | done] | tauto].
Qed.

Lemma dict_set_fresh (d : row) k v :
  k ∉ dict_keys d -> dict_set d k v = d ++ [(k, v)].
Proof.
  unfold dict_keys. induction d as [| [k0 v0] d IH]; simpl; [done |].
  intros [Hne Hnot]%not_elem_of_cons.
  rewrite bool_decide_eq_false_2 by congruence. by rewrite IH.
Qed.

Lemma dict_keys_set_present (d : row) k v :
  k ∈ dict_keys d -> dict_keys (dict_set d k v) = dict_keys d.
Proof.
  unfold dict_keys. induction d as [| [k0 v0] d IH]; simpl.
  - by intros ?%elem_of_nil.
  - intros Hin. case_bool_decide as E; [done |]. simpl. f_equal. apply IH.
    apply elem_of_cons in Hin as [-> | Hin]; done.
Qed.

Lemma dict_lookup_app (d d' : row) k :
  dict_lookup (d ++ d') k
  = match dict_lookup d k with Some v => Some v | None => dict_lookup d' k end.
Proof.
  induction d as [| [k0 v0] d IH]; simpl; [done |]. by case_bool_decide.
Qed.

(** ** Renaming the keys of the rows *)

Lemma rename_keys_lookup (items : row) col_map k' :
  forall new_row,
    dict_lookup (Upsert.rename_keys items col_map new_row) k'
    = match dict_lookup
              (reverse ((rename_pair col_map) <$> items)) k' with
      | Some v => Some v
      | None => dict_lookup new_row k'
      end.
Proof.
  induction items as [| [k v] items IH]; intros new_row; [done |].
  cbn [Upsert.rename_keys]. rewrite IH.
  rewrite fmap_cons, reverse_cons, dict_lookup_app.
  destruct (dict_lookup (reverse _) k') as [v' |]; [done |]. simpl.
  fold (renamed col_map k). case_bool_decide as E.
  - subst k'. apply dict_lookup_set_eq.
  - by apply dict_lookup_set_ne.
Qed.

Lemma rename_keys_distinct (items : row) col_map :
  forall new_row,
    NoDup (renamed col_map <$> dict_keys items) ->
    (forall k, k ∈ dict_keys items -> renamed col_map k ∉ dict_keys new_row) ->
    Upsert.rename_keys items col_map new_row
    = new_row ++ ((rename_pair col_map) <$> items).
Proof.
  unfold dict_keys.
  induction items as [| [k v] items IH]; intros new_row Hnd Hfree.
  - simpl. by rewrite app_nil_r.
  - cbn [Upsert.rename_keys]. fold (renamed col_map k).
    simpl in Hnd. apply NoDup_cons in Hnd as [Hk Hnd].
    rewrite dict_set_fresh by (apply Hfree; simpl; by left).
    rewrite IH; [by rewrite fmap_cons, <- app_assoc | done |].
    intros k0 Hin. unfold dict_keys. rewrite fmap_app, not_elem_of_app. split.
    + apply Hfree. simpl. by right.
    + simpl. rewrite list_elem_of_singleton. intros Heq. apply Hk.
      rewrite <- Heq. by apply list_elem_of_fmap_2.
Qed.

Lemma apply_column_map_distinct_rows (rows : list row) (col_map : list (str * str)) :
  Forall (fun r => NoDup (renamed col_map <$> dict_keys r)) rows ->
  Upsert.apply_column_map rows col_map
  = (fun r : row => rename_pair col_map <$> r) <$> rows.
Proof.
  intros Hrows. unfold Upsert.apply_column_map.
  apply list_fmap_ext. intros i r Hi.
  eapply Forall_lookup_1 in Hrows; [| exact Hi].
  rewrite rename_keys_distinct; [done | done |].
  intros k _. apply not_elem_of_nil.
Qed.

(** X11: when the column map sends the keys of every row to pairwise
    distinct columns, [apply_column_map] renames each key in place: the rows
    keep their number, their cells and the order of their cells. *)
Theorem apply_column_map_distinct (rows : list row) (col_map : list (str * str)) :
  Forall (fun r => NoDup (renamed col_map <$> dict_keys r)) rows ->
  Upsert.apply_column_map rows col_map
  = (fun r : row => rename_pair col_map <$> r) <$> rows.
Proof. apply apply_column_map_distinct_rows. Qed.

Lemma apply_column_map_distinct_witness :
  Upsert.apply_column_map [a_b_row] [(pystr "given_name", pystr "first")]
  = [ [ (pystr "first", pystr "A"); (pystr "family_name", pystr "B");
        (pystr "email_address", pystr "a@b.com"); (pystr "phone_number", pystr "") ] ].
Proof.
  apply (apply_column_map_distinct [a_b_row] [(pystr "given_name", pystr "first")]).
  apply (bool_decide_unpack _). vm_compute. exact I.
Defined.

(** X12: with the empty column map (the default [COLUMN_MAP] is the text
    of the empty object) rows whose keys are distinct, as the keys of a
    [dict] are, come out unchanged. *)
Theorem apply_column_map_empty (rows : list row) :
  Forall (fun r => NoDup (dict_keys r)) rows ->
  Upsert.apply_column_map rows [] = rows.
Proof.
  intros Hrows.
  assert (Hid : forall k, renamed [] k = k) by done.
  rewrite apply_column_map_distinct_rows.
  - rewrite <- (list_fmap_id rows) at 2. apply list_fmap_ext. intros i r _.
    rewrite <- (list_fmap_id r) at 2. apply list_fmap_ext. by intros j [k v] _.
  - eapply Forall_impl; [exact Hrows |]. intros r Hr. simpl.
    by rewrite (list_fmap_ext (renamed []) id (dict_keys r)), list_fmap_id.
Qed.

Lemma apply_column_map_empty_witness :
  Upsert.apply_column_map [john_doe_row; a_b_row] [] = [john_doe_row; a_b_row].
Proof.
  apply (apply_column_map_empty [john_doe_row; a_b_row]).
  apply (bool_decide_unpack _). vm_compute. exact I.
Defined.

(** X13: in a row that [apply_column_map] has renamed, a column holds the
    cell of the last key of the row that is renamed to it; so when two keys
    are renamed to one column, only the cell of the later one is kept. *)
Theorem apply_column_map_last_wins (r : row) (col_map : list (str * str))
    (column : str) :
  dict_lookup (Upsert.rename_keys r col_map []) column
  = dict_lookup (reverse ((rename_pair col_map) <$> r)) column.
Proof.
  rewrite rename_keys_lookup. by destruct (dict_lookup (reverse _) column).
Qed.

(** ** Runs of the upsert driver *)




(** ** Fetching the sheet *)

Lemma dict_keys_set (d : row) k v :
  dict_keys (dict_set d k v)
  = if bool_decide (k ∈ dict_keys d) then dict_keys d else dict_keys d ++ [k].
Proof.
  case_bool_decide as Hin.
  - by apply dict_keys_set_present.
  - rewrite dict_set_fresh by done. unfold dict_keys. by rewrite fmap_app.
Qed.

Lemma dict_keys_foldl (pairs : list (str * str)) :
  forall d : row,
    dict_keys (foldl (fun d '(k, v) => dict_set d k v) d pairs)
    = foldl (fun ks k => if bool_decide (k ∈ ks) then ks else ks ++ [k])
        (dict_keys d) pairs.*1.
Proof.
  induction pairs as [| [k v] pairs IH]; intros d; [done |].
  simpl. by rewrite IH, dict_keys_set.
Qed.

Lemma dict_keys_of_pairs pairs : dict_keys (dict_of_pairs pairs) = key_order pairs.*1.
Proof. unfold dict_of_pairs, key_order. by rewrite dict_keys_foldl. Qed.

Lemma dict_of_pairs_foldl_distinct (pairs : list (str * str)) :
  forall d : row,
    NoDup (dict_keys d ++ pairs.*1) ->
    foldl (fun d '(k, v) => dict_set d k v) d pairs = d ++ pairs.
Proof.
  induction pairs as [| [k v] pairs IH]; intros d Hnd; simpl.
  - by rewrite app_nil_r.
  - simpl in Hnd. rewrite dict_set_fresh.
    + rewrite IH; [by rewrite <- app_assoc |].
      unfold dict_keys. rewrite fmap_app. simpl. by rewrite <- app_assoc.
    + apply NoDup_app in Hnd as (_ & Hdisj & _). intros Hin.
      apply (Hdisj k Hin). by left.
Qed.

Lemma dict_of_pairs_distinct pairs : NoDup pairs.*1 -> dict_of_pairs pairs = pairs.
Proof. intros Hnd. unfold dict_of_pairs. by rewrite dict_of_pairs_foldl_distinct. Qed.

Lemma pad_row_length n cells : (n <= length (pad_row n cells))%nat.
Proof. unfold pad_row. rewrite length_app, length_replicate. lia. Qed.

Lemma pad_row_lookup n cells (j : nat) :
  (j < n)%nat -> pad_row n cells !! j = Some (default [] (cells !! j)).
Proof.
  intros Hj. unfold pad_row. destruct (decide (j < length cells)%nat) as [Hlt | Hge].
  - rewrite lookup_app_l by done.
    destruct (lookup_lt_is_Some_2 cells j Hlt) as [c Hc]. by rewrite Hc.
  - rewrite lookup_app_r by lia. rewrite lookup_replicate_2 by lia.
    by rewrite (lookup_ge_None_2 cells j) by lia.
Qed.

Lemma dict_lookup_index (d : row) :
  forall (j : nat) k v,
    NoDup (dict_keys d) -> d !! j = Some (k, v) -> dict_lookup d k = Some v.
Proof.
  unfold dict_keys. induction d as [| [k0 v0] d IH]; intros j k v Hnd Hj; [done |].
  simpl in Hnd. apply NoDup_cons in Hnd as [Hk0 Hnd]. simpl.
  destruct j as [| j]; simpl in Hj.
  - injection Hj as -> ->. by rewrite bool_decide_eq_true_2.
  - case_bool_decide as E; [| by eapply IH].
    exfalso. apply Hk0. subst k0.
    apply (list_elem_of_fmap_2' fst _ (k, v)); [| done].
    by eapply list_elem_of_lookup_2.
Qed.

Lemma fetch_sheet_rows_data headers data :
  data <> [] ->
  fetch_sheet_rows (headers :: data)
  = (fun cells => dict_of_pairs (zip headers (pad_row (length headers) cells)))
    <$> data.
Proof. intros Hdata. by destruct data. Qed.

Lemma fetched_row_distinct headers cells :
  NoDup headers ->
  dict_of_pairs (zip headers (pad_row (length headers) cells))
  = zip headers (pad_row (length headers) cells).
Proof.
  intros Hnd. apply dict_of_pairs_distinct.
  by rewrite fst_zip by apply pad_row_length.
Qed.

(** X15: all the rows of one fetch have the same keys in the same order,
    whatever the headers are (repeated headers included): the headers, each
    at its first place.  There is one row per data row of the sheet, and a
    sheet with no data row (empty, or headers only) gives no row. *)
Theorem fetch_sheet_rows_uniform (values : list (list str)) :
  Forall (fun r => dict_keys r = key_order (default [] (head values)))
    (fetch_sheet_rows values) /\
  length (fetch_sheet_rows values) = (length values - 1)%nat /\
  ((length values < 2)%nat -> fetch_sheet_rows values = []).
Proof.
  destruct values as [| headers [| cells data]]; [by repeat split .. |].
  rewrite fetch_sheet_rows_data by done. split; [| split].
  - apply Forall_fmap, Forall_forall. intros c _. simpl.
    by rewrite dict_keys_of_pairs, fst_zip by apply pad_row_length.
  - rewrite length_fmap. simpl. lia.
  - simpl. lia.
Qed.

Lemma fetch_sheet_rows_uniform_witness :
  fetch_sheet_rows [[pystr "a"; pystr "b"]] = [].
Proof.
  apply (proj2 (proj2 (fetch_sheet_rows_uniform [[pystr "a"; pystr "b"]]))).
  simpl. lia.
Defined.

(** X16: when the headers are pairwise distinct, every fetched row has
    exactly the headers as its keys, in their order, and holds under each
    header the cell of that column: the text of the cell, or the empty text
    when the sheet row is too short to have it.  Cells beyond the last
    header are dropped. *)
Theorem fetch_sheet_rows_cells (headers : list str) (data : list (list str)) :
  NoDup headers -> data <> [] ->
  Forall2 (fun cells r =>
             dict_keys r = headers /\
             length r = length headers /\
             forall (j : nat) h, headers !! j = Some h ->
               dict_lookup r h = Some (default [] (cells !! j)))
    data (fetch_sheet_rows (headers :: data)).
Proof.
  intros Hnd Hdata. rewrite fetch_sheet_rows_data by done.
  apply Forall2_fmap_r, Forall_Forall2_diag, Forall_forall. intros cells _.
  unfold compose. rewrite fetched_row_distinct by done.
  assert (Hkeys : dict_keys (zip headers (pad_row (length headers) cells)) = headers).
  { unfold dict_keys. apply fst_zip, pad_row_length. }
  split; [done |]. split.
  - transitivity (length (dict_keys (zip headers (pad_row (length headers) cells))));
      [unfold dict_keys; by rewrite length_fmap | by rewrite Hkeys].
  - intros j h Hj. eapply (dict_lookup_index _ j); [by rewrite Hkeys |].
    apply lookup_zip_Some. split; [done |].
    apply pad_row_lookup. by eapply lookup_lt_Some.
Qed.

Lemma fetch_sheet_rows_cells_witness :
  Forall2 (fun cells r =>
             dict_keys r = [pystr "name"; pystr "email"] /\
             length r = 2%nat /\
             forall (j : nat) h, [pystr "name"; pystr "email"] !! j = Some h ->
               dict_lookup r h = Some (default [] (cells !! j)))
    [[pystr "Ann"]; [pystr "Bob"; pystr "b@x.com"; pystr "extra"]]
    (fetch_sheet_rows [[pystr "name"; pystr "email"]; [pystr "Ann"];
                       [pystr "Bob"; pystr "b@x.com"; pystr "extra"]]).
Proof.
  apply (fetch_sheet_rows_cells [pystr "name"; pystr "email"]
           [[pystr "Ann"]; [pystr "Bob"; pystr "b@x.com"; pystr "extra"]]).
  - apply (bool_decide_unpack _). vm_compute. exact I.
  - discriminate.
Defined.

Lemma rows_to_values_fetched_row headers cells :
  NoDup headers ->
  (fun h => let v := dict_get (zip headers (pad_row (length headers) cells)) h [] in
            if bool_decide (v = []) then PyNone else PyStr v) <$> headers
  = cell_value <$> take (length headers) (pad_row (length headers) cells).
Proof.
  intros Hnd. apply list_eq. intros j.
  rewrite !list_lookup_fmap.
  destruct (headers !! j) as [h |] eqn:Hj; simpl.
  - assert (Hlt : (j < length headers)%nat) by by eapply lookup_lt_Some.
    rewrite lookup_take_lt, pad_row_lookup by done. simpl. f_equal.
    unfold cell_value, dict_get.
    rewrite (dict_lookup_index _ j h (default [] (cells !! j))); [done | |].
    + unfold dict_keys. by rewrite fst_zip by apply pad_row_length.
    + apply lookup_zip_Some. split; [done |]. by apply pad_row_lookup.
  - apply lookup_ge_None in Hj. by rewrite lookup_take_ge.
Qed.

(** X17: from the sheet to the values of the insert statement.  When the
    headers are pairwise distinct, [rows_to_values] on the fetched rows and
    the headers gives, for every data row of the sheet, one value per
    header: the text of the cell, and null for a cell that is empty or
    missing; cells beyond the last header do not appear. *)
Theorem rows_to_values_of_fetch (headers : list str) (data : list (list str)) :
  NoDup headers -> data <> [] ->
  rows_to_values (fetch_sheet_rows (headers :: data)) headers
  = (fun cells =>
       cell_value <$> take (length headers) (pad_row (length headers) cells))
    <$> data.
Proof.
  intros Hnd Hdata. rewrite fetch_sheet_rows_data by done.
  unfold rows_to_values. rewrite <- list_fmap_compose.
  apply list_fmap_ext. intros i cells _. unfold compose.
  rewrite fetched_row_distinct by done.
  by apply rows_to_values_fetched_row.
Qed.

Lemma rows_to_values_of_fetch_witness :
  rows_to_values
    (fetch_sheet_rows [[pystr "name"; pystr "email"]; [pystr "Ann"];
                       [pystr ""; pystr "b@x.com"; pystr "extra"]])
    [pystr "name"; pystr "email"]
  = [[PyStr (pystr "Ann"); PyNone]; [PyNone; PyStr (pystr "b@x.com")]].
Proof.
  apply (rows_to_values_of_fetch [pystr "name"; pystr "email"]
           [[pystr "Ann"]; [pystr ""; pystr "b@x.com"; pystr "extra"]]).
  - apply (bool_decide_unpack _). vm_compute. exact I.
  - discriminate.
Defined.

(** ** Reading a tuple back *)

Lemma read_values_cons v n s rest :
  read_sql_value s = Some (v, 44 :: 32 :: rest) ->
  read_values (S (S n)) s
  = match read_values (S n) rest with
    | Some (vs, tail) => Some (v :: vs, tail)
    | None => None
    end.
Proof. intros Hv. simpl. rewrite Hv. reflexivity. Qed.

Lemma read_values_join (vals : list pyval) (tail : str) :
  head tail <> Some quote -> head tail <> Some 44 ->
  read_values (length vals)
    (join (pystr ", ") (escape_sql_value <$> vals) ++ tail)
  = Some (stored <$> vals, tail).
Proof.
  intros Hq Hc. induction vals as [| v vals IH]; [done |].
  destruct vals as [| v' vals].
  - cbn [fmap list_fmap join length read_values].
    by rewrite read_sql_value_escape.
  - change (join (pystr ", ") (escape_sql_value <$> v :: v' :: vals))
      with (escape_sql_value v ++ pystr ", "
            ++ join (pystr ", ") (escape_sql_value <$> v' :: vals)).
    rewrite <- !app_assoc.
    change (length (v :: v' :: vals)) with (S (S (length vals))).
    rewrite (read_values_cons (stored v) _ _
               (join (pystr ", ") (escape_sql_value <$> v' :: vals) ++ tail)).
    + change (S (length vals)) with (length (v' :: vals)). by rewrite IH.
    + by rewrite read_sql_value_escape by (simpl; discriminate).
Qed.

(** X18: a tuple of the [VALUES] clause reads back, under the standard
    SQL quoting rules, as the values it was written from, one for one: null
    for [None] and the text otherwise.  No text, whatever quotes, commas or
    parentheses it contains, ends the tuple early or adds a value to it. *)
Theorem value_tuple_reads_back (vals : list pyval) (tail : str) :
  read_tuple (length vals)
    (pystr "(" ++ join (pystr ", ") (escape_sql_value <$> vals) ++ pystr ")" ++ tail)
  = Some (stored <$> vals, tail).
Proof.
  change (pystr "(" ++ ?x) with (40 :: x). cbn [read_tuple].
  rewrite read_values_join by (simpl; discriminate). reflexivity.
Qed.

(** ** Rows are judged one by one *)

(** X19: [filter_rows] judges every row on its own: filtering two lists
    put end to end gives the two filtered lists put end to end, and the
    output is never longer than the input. *)
Theorem filter_rows_app `{PyUnicode} (rows rows' : list row) :
  filter_rows (rows ++ rows') = filter_rows rows ++ filter_rows rows' /\
  (length (filter_rows rows) <= length rows)%nat.
Proof.
  rewrite !filter_rows_spec. split; [apply filter_app | apply length_filter].
Qed.

(** ** Letter case *)

Lemma lstrip_by_fmap (p : N -> bool) (f : N -> N) s :
  (forall c, p (f c) = p c) -> lstrip_by p (f <$> s) = f <$> lstrip_by p s.
Proof.
  intros Hp. induction s as [| c s IH]; [done |].
  rewrite fmap_cons. cbn [lstrip_by]. rewrite Hp.
  destruct (p c); [exact IH | by rewrite fmap_cons].
Qed.

Lemma ascii_lower_idemp c : ascii_lower (ascii_lower c) = ascii_lower c.
Proof.
  unfold ascii_lower.
  destruct ((65 <=? c) && (c <=? 90)) eqn:E; [| by rewrite E].
  apply andb_prop in E as [H1%N.leb_le H2%N.leb_le].
  rewrite (proj2 (andb_false_iff _ _)); [done |]. right. apply N.leb_gt. lia.
Qed.

Lemma is_ascii_lower c : is_ascii (ascii_lower c) = is_ascii c.
Proof.
  unfold ascii_lower, is_ascii.
  destruct ((65 <=? c) && (c <=? 90)) eqn:E; [| done].
  apply andb_prop in E as [H1%N.leb_le H2%N.leb_le].
  rewrite (proj2 (N.ltb_lt _ _)), (proj2 (N.ltb_lt _ _)); [done | lia | lia].
Qed.

Lemma forallb_lstrip_by (q p : N -> bool) s :
  forallb q s = true -> forallb q (lstrip_by p s) = true.
Proof.
  induction s as [| c s IH]; [done |]. intros Hs. cbn [lstrip_by].
  destruct (p c); [| done]. apply IH. simpl in Hs. by apply andb_prop in Hs as [_ ?].
Qed.

Lemma forallb_reverse (q : N -> bool) s :
  forallb q (reverse s) = forallb q s.
Proof.
  induction s as [| c s IH]; [done |].
  rewrite reverse_cons, forallb_app, IH. simpl. rewrite andb_true_r. apply andb_comm.
Qed.

Section LetterCase.
Context {U : PyUnicode}.

Lemma isspace_ascii_lower c : isspace (ascii_lower c) = isspace c.
Proof.
  unfold ascii_lower.
  destruct ((65 <=? c) && (c <=? 90)) eqn:E; [| done].
  apply andb_prop in E as [H1%N.leb_le H2%N.leb_le].
  unfold isspace, is_ascii.
  rewrite (proj2 (N.ltb_lt _ _)), (proj2 (N.ltb_lt _ _)) by lia.
  unfold ascii_isspace.
  transitivity false; [| symmetry];
    apply orb_false_intro; apply andb_false_iff; right; apply N.leb_gt; lia.
Qed.

Lemma strip_ascii_lower s : strip (ascii_lower <$> s) = ascii_lower <$> strip s.
Proof.
  unfold strip, rstrip_by.
  rewrite (lstrip_by_fmap isspace ascii_lower s) by apply isspace_ascii_lower.
  rewrite <- fmap_reverse.
  rewrite (lstrip_by_fmap isspace ascii_lower) by apply isspace_ascii_lower.
  by rewrite fmap_reverse.
Qed.

Lemma strip_is_ascii s : forallb is_ascii s = true -> forallb is_ascii (strip s) = true.
Proof.
  intros Hs. unfold strip, rstrip_by.
  rewrite forallb_reverse. apply forallb_lstrip_by.
  rewrite forallb_reverse. by apply forallb_lstrip_by.
Qed.

Lemma lower_ascii_lower s :
  forallb is_ascii s = true -> lower (ascii_lower <$> s) = lower s.
Proof.
  intros Hs. unfold lower. rewrite Hs.
  assert (Hs' : forallb is_ascii (ascii_lower <$> s) = true).
  { clear -Hs. induction s as [| c s IH]; [done |].
    rewrite fmap_cons. cbn [forallb] in *.
    apply andb_prop in Hs as [Hc Hs]. by rewrite is_ascii_lower, Hc, IH. }
  rewrite Hs', <- list_fmap_compose.
  apply list_fmap_ext. intros i c _. apply ascii_lower_idemp.
Qed.

Lemma sanitize_ascii_lower s :
  forallb is_ascii s = true ->
  sanitize_column_name (ascii_lower <$> s) = sanitize_column_name s.
Proof.
  intros Hs. unfold sanitize_column_name.
  rewrite strip_ascii_lower.
  rewrite (lower_ascii_lower (strip s)) by by apply strip_is_ascii.
  destruct (strip s) as [| c t]; [done |].
  by rewrite !bool_decide_eq_false_2 by done.
Qed.
End LetterCase.

(** X20: letter case does not count.  Two headers of ASCII characters that
    differ only in the case of their letters are sanitized to the same name
    (which is why [build_column_map] has to tell them apart by a suffix). *)
Theorem sanitize_column_name_case `{PyUnicode} (h h' : str) :
  forallb is_ascii h = true -> forallb is_ascii h' = true ->
  ascii_lower <$> h = ascii_lower <$> h' ->
  sanitize_column_name h = sanitize_column_name h'.
Proof.
  intros Hh Hh' Heq.
  by rewrite <- (sanitize_ascii_lower h), <- (sanitize_ascii_lower h'), Heq.
Qed.

Lemma sanitize_column_name_case_witness :
  @sanitize_column_name ascii_tables (pystr "E-Mail Address")
  = @sanitize_column_name ascii_tables (pystr "e-mail ADDRESS").
Proof.
  apply (@sanitize_column_name_case ascii_tables
           (pystr "E-Mail Address") (pystr "e-mail ADDRESS"));
    reflexivity.
Defined.

(** ** When the column mapping does not return *)

(** X21: the mapping hangs at any header whose sanitized name has all 63
    characters and is already taken (by an earlier header with the same
    sanitized name, or by an earlier disambiguated name): every candidate is
    cut back to that name, so the loop never ends, whatever headers
    follow. *)
Theorem build_column_map_hangs_on_full_name `{PyUnicode}
    (fuel : nat) (pre rest : list str) (h : str) (result : list (str * str)) :
  build_column_map fuel pre = Returns result ->
  length (sanitize_column_name h) = 63%nat ->
  sanitize_column_name h ∈ pystr "id" :: result.*2 ->
  build_column_map fuel (pre ++ h :: rest) = NoFuel.
Proof.
  unfold build_column_map. intros Hpre Hlen Htaken.
  rewrite for_headers_app.
  destruct (for_headers fuel pre _) as [[seen result'] | |] eqn:Hfor;
    cbn [mbind outcome_bind] in Hpre |- *; [| done | done].
  injection Hpre as ->.
  apply for_headers_spec in Hfor as (Hinv & _ & _);
    [| apply column_inv_init | by intros i h0 name].
  apply (inv_dom _ _ Hinv) in Htaken. destruct Htaken as [k Hk].
  change (for_headers fuel (h :: rest) (seen, result))
    with (column_step fuel (seen, result) h ≫= for_headers fuel rest).
  unfold column_step.
  rewrite bool_decide_eq_false_2 by (rewrite Hk; discriminate).
  unfold next_candidate. rewrite Hk. cbn [mbind outcome_bind].
  rewrite candidate_name_full by done.
  rewrite while_candidate_full_base; [done | done |].
  rewrite lookup_insert_eq. eauto.
Qed.

Lemma build_column_map_hangs_on_full_name_witness :
  @build_column_map ascii_tables 5 ([pystr "Email"; long_header] ++ LONG_HEADER :: [])
  = NoFuel.
Proof.
  apply (@build_column_map_hangs_on_full_name ascii_tables 5%nat
           [pystr "Email"; long_header] [] LONG_HEADER
           [(pystr "Email", pystr "email"); (long_header, long_header)]).
  - vm_compute. reflexivity.
  - vm_compute. reflexivity.
  - apply (bool_decide_unpack _). vm_compute. exact I.
Defined.
